(** * StockAI scoring engine: wave-stage classifier, order-flow scorer, aggregator

    A shallow embedding of
      - [implementations/StockAI/analysis2.py]
        (class [EnhancedWaveTransitionAnalyzerV3]) and
      - [implementations/StockAI/all_institutional_trend_data.py]
        ([calculate_trend_metrics], [calculate_supply_demand_score],
        [analyze_institutional_trend], [collect_all_institutional_data]),
      and of the functions that consume their results:
      - [implementations/StockAI/dashboard/utils.py]
        ([get_color_by_score], [get_grade_color], [get_top_stocks],
        [get_summary_stats]) and
      - [implementations/StockAI/notifier.py] ([get_new_picks]).

    Numbers.  The Python code computes on IEEE doubles held in pandas
    columns.  Here a double is an exact rational, one of the two infinities,
    or NaN ([float64] below): rounding error and signed zeros are idealised
    away, while everything the code branches on (NaN propagation, division by
    zero, comparisons that are false on NaN) is kept.  Integer results
    (stage scores, the proxy fundamental score, the flow score) are [Z]. *)

From Stdlib Require Import QArith Qround Qabs Qminmax Lqa ZArith List.
From Stdlib Require Import Sorting.Permutation Sorting.Sorted.
From stdpp Require Import base option strings gmap.

Open Scope string_scope.

(* ================================================================= *)
(** ** Doubles *)

Module Float.

Inductive float64 : Type :=
| Fin (q : Q)
| PInf
| NInf
| NaN.

Definition Qltb (a b : Q) : bool := negb (Qle_bool b a).

Definition isna (x : float64) : bool :=
  match x with NaN => true | _ => false end.

Definition notna (x : float64) : bool := negb (isna x).

(** Comparisons: every comparison with NaN is false. *)
Definition fleb (x y : float64) : bool :=
  match x, y with
  | NaN, _ | _, NaN => false
  | Fin a, Fin b => Qle_bool a b
  | NInf, _ => true
  | _, PInf => true
  | _, _ => false
  end.

Definition fltb (x y : float64) : bool :=
  match x, y with
  | NaN, _ | _, NaN => false
  | Fin a, Fin b => Qltb a b
  | PInf, _ => false
  | _, NInf => false
  | _, _ => true
  end.

Definition fgeb (x y : float64) : bool := fleb y x.
Definition fgtb (x y : float64) : bool := fltb y x.

Definition feqb (x y : float64) : bool :=
  match x, y with
  | Fin a, Fin b => Qeq_bool a b
  | PInf, PInf | NInf, NInf => true
  | _, _ => false
  end.

Definition fneg (x : float64) : float64 :=
  match x with
  | Fin a => Fin (- a)
  | PInf => NInf
  | NInf => PInf
  | NaN => NaN
  end.

Definition fabs (x : float64) : float64 :=
  match x with
  | Fin a => Fin (Qabs a)
  | PInf | NInf => PInf
  | NaN => NaN
  end.

Definition fadd (x y : float64) : float64 :=
  match x, y with
  | NaN, _ | _, NaN => NaN
  | Fin a, Fin b => Fin (a + b)
  | PInf, NInf | NInf, PInf => NaN
  | PInf, _ | _, PInf => PInf
  | NInf, _ | _, NInf => NInf
  end.

Definition fsub (x y : float64) : float64 := fadd x (fneg y).

(** The infinity with the sign of [q] (of [- q] when [flip]); NaN at [0]. *)
Definition signed_inf (flip : bool) (q : Q) : float64 :=
  if Qeq_bool q 0 then NaN
  else if xorb flip (Qltb 0 q) then PInf else NInf.

Definition fmul (x y : float64) : float64 :=
  match x, y with
  | NaN, _ | _, NaN => NaN
  | Fin a, Fin b => Fin (a * b)
  | PInf, Fin q | Fin q, PInf => signed_inf false q
  | NInf, Fin q | Fin q, NInf => signed_inf true q
  | PInf, PInf | NInf, NInf => PInf
  | PInf, NInf | NInf, PInf => NInf
  end.

(** Division as numpy does it: [x / 0] is an infinity, [0 / 0] is NaN. *)
Definition fdiv (x y : float64) : float64 :=
  match x, y with
  | NaN, _ | _, NaN => NaN
  | Fin a, Fin b => if Qeq_bool b 0 then signed_inf false a else Fin (a / b)
  | Fin _, _ => Fin 0
  | PInf, Fin b => if Qltb b 0 then NInf else PInf
  | NInf, Fin b => if Qltb b 0 then PInf else NInf
  | _, _ => NaN
  end.

Definition of_Z (z : Z) : float64 := Fin (inject_Z z).
Definition of_nat (n : nat) : float64 := of_Z (Z.of_nat n).

(** A double that is a rational number satisfying [P]. *)
Definition fin_where (P : Q -> Prop) (x : float64) : Prop :=
  exists q, x = Fin q /\ P q.

Definition finite : float64 -> Prop := fin_where (fun _ => True).
Definition nonneg : float64 -> Prop := fin_where (fun q => (0 <= q)%Q).
Definition fin_or_nan (x : float64) : Prop := x = NaN \/ finite x.

End Float.
Export Float.

(* ================================================================= *)
(** ** The pandas operations the two modules call *)

Module Pandas.

(** [Series.where(cond, other)]: keep the entries where [cond] holds. *)
Definition where_ (cond : float64 -> bool) (other : float64)
    (xs : list float64) : list float64 :=
  map (fun x => if cond x then x else other) xs.

(** [Series.replace(a, b)]. *)
Definition replace (a b : float64) (xs : list float64) : list float64 :=
  map (fun x => if feqb x a then b else x) xs.

(** [Series.fillna(v)]. *)
Definition fillna (v : float64) (xs : list float64) : list float64 :=
  map (fun x => if isna x then v else x) xs.

(** [Series.shift(n)]: [n] NaNs in front, the last [n] entries dropped. *)
Definition shift (n : nat) (xs : list float64) : list float64 :=
  firstn (length xs) (repeat NaN n ++ xs).

(** [Series.diff()]. *)
Definition diff (xs : list float64) : list float64 :=
  zip_with fsub xs (shift 1 xs).

(** [Series.pct_change(n)]: [x / x.shift(n) - 1]. *)
Definition pct_change (n : nat) (xs : list float64) : list float64 :=
  zip_with (fun x p => fsub (fdiv x p) (Fin 1)) xs (shift n xs).

(** The rows a trailing window of width [w] ending at row [i] covers. *)
Definition window {A} (w i : nat) (xs : list A) : list A :=
  skipn (S i - w) (firstn (S i) xs).

Definition fsum (xs : list float64) : float64 :=
  fold_right fadd (Fin 0) xs.

Definition fmax (x y : float64) : float64 := if fleb x y then y else x.
Definition fmin (x y : float64) : float64 := if fleb y x then y else x.

(** Fold of a non-empty list of observations. *)
Definition reduce (f : float64 -> float64 -> float64)
    (obs : list float64) : float64 :=
  match obs with
  | [] => NaN
  | x :: rest => fold_left f rest x
  end.

(** [Series.rolling(window=w, min_periods=minp).agg()]: the aggregate of the
    non-NaN observations of each window, NaN where fewer than [minp] of
    them exist. *)
Definition rolling (agg : list float64 -> float64) (w minp : nat)
    (xs : list float64) : list float64 :=
  map (fun i =>
         let obs := List.filter notna (window w i xs) in
         if (length obs <? minp)%nat then NaN else agg obs)
      (seq 0 (length xs)).

Definition mean (obs : list float64) : float64 :=
  fdiv (fsum obs) (of_nat (length obs)).

Definition rolling_mean := rolling mean.
Definition rolling_max := rolling (reduce fmax).
Definition rolling_min := rolling (reduce fmin).

(** [Series.tail(n)]. *)
Definition tail {A} (n : nat) (xs : list A) : list A :=
  skipn (length xs - n) xs.

(** [Series.unique()]: the distinct values in order of first appearance. *)
Fixpoint unique (xs : list string) : list string :=
  match xs with
  | [] => []
  | x :: rest => x :: List.filter (fun y => negb (String.eqb x y)) (unique rest)
  end.

(** [DataFrame.sort_values(by, ascending)] with the default
    [kind='quicksort'].  pandas documents that only [kind='mergesort'] and
    [kind='stable'] keep the order of equal keys; with the default the
    result is some rearrangement of the rows, ordered by the key, and the
    order among rows of equal key is whatever numpy's sort leaves.  The
    interface records exactly that contract. *)
Definition key_ordered {A} (key : A -> Q) (ascending : bool) (x y : A) : Prop :=
  if ascending then (key x <= key y)%Q else (key y <= key x)%Q.

Class SortValues : Type := {
  sort_values : forall {A : Type}, (A -> Q) -> bool -> list A -> list A;
  sort_values_perm : forall A (key : A -> Q) ascending (rows : list A),
      Permutation rows (sort_values key ascending rows);
  sort_values_sorted : forall A (key : A -> Q) ascending (rows : list A),
      StronglySorted (key_ordered key ascending) (sort_values key ascending rows)
}.

(** Two sorting routines that meet the contract, by insertion: [before x y]
    decides whether the row being inserted goes in front of [y]. *)
Fixpoint insert_by {A} (before : A -> A -> bool) (x : A) (l : list A) : list A :=
  match l with
  | [] => [x]
  | y :: rest => if before x y then x :: y :: rest
                 else y :: insert_by before x rest
  end.

Definition isort_by {A} (before : A -> A -> bool) (l : list A) : list A :=
  fold_right (insert_by before) [] l.

(** Equal keys stay in input order. *)
Definition before_stable {A} (key : A -> Q) (ascending : bool) (x y : A) : bool :=
  if ascending then Qle_bool (key x) (key y) else Qle_bool (key y) (key x).

(** Equal keys come out in reverse input order. *)
Definition before_strict {A} (key : A -> Q) (ascending : bool) (x y : A) : bool :=
  if ascending then Qltb (key x) (key y) else Qltb (key y) (key x).

End Pandas.
Export Pandas.

(* ================================================================= *)
(** ** analysis2.py *)

Module Analysis2.

(** A row of [self.prices_df] (one instrument, one trading day).  The frame
    is the one the constructor leaves behind: tickers zero-padded and the
    rows ordered by ticker and date by [_preprocess_data]. *)
Module PriceBar.
Record t : Type := mk {
  ticker : string;
  date : Z;
  open : Q;
  high : Q;
  low : Q;
  close : Q;
  volume : Q
}.
End PriceBar.

(** A row of the indicator frame, read with [row.get(key, default)]: a cell
    is [None] when the key is absent, and may hold NaN when present. *)
Module Row.
Record t : Type := mk {
  close : option float64;
  ma5 : option float64;
  ma20 : option float64;
  ma50 : option float64;
  ma200 : option float64;
  rsi : option float64;
  volume_ma20 : option float64;
  volume_ratio : option float64;
  high_52w : option float64;
  low_52w : option float64;
  position_52w : option float64;
  price_change_5d : option float64;
  price_change_20d : option float64;
  price_change_60d : option float64;
  golden_cross : option bool;
  death_cross : option bool;
  ma_aligned : option bool
}.
End Row.

(** A row of [self.institutional_df], the table written by
    [collect_all_institutional_data]: the score column holds the integers
    returned by [calculate_supply_demand_score]. *)
Module InstRow.
Record t : Type := mk {
  ticker : string;
  supply_demand_score : option Z;
  supply_demand_stage : option string
}.
End InstRow.

(** The dictionary [analyze_stock] returns.  The two sentinel dictionaries
    carry only the first five keys; the display-only keys of the full result
    (name, market, current_date, current_price and the rounded indicator
    values) feed no score and are left out. *)
Module Result.
Record t : Type := mk {
  ticker : string;
  wave_score : Z;
  wave_stage : string;
  final_investment_score : Q;
  investment_grade : string;
  supply_demand_score : option Z;
  supply_demand_stage : option string;
  fundamental_score : option Z
}.
End Result.

Inductive exn : Type := IndexError.

Section Columns.

Variable df : list PriceBar.t.

Definition col_close : list float64 := map (fun b => Fin (PriceBar.close b)) df.
Definition col_high : list float64 := map (fun b => Fin (PriceBar.high b)) df.
Definition col_low : list float64 := map (fun b => Fin (PriceBar.low b)) df.
Definition col_volume : list float64 := map (fun b => Fin (PriceBar.volume b)) df.

Definition col_ma5 := rolling_mean 5 1 col_close.
Definition col_ma20 := rolling_mean 20 1 col_close.
Definition col_ma50 := rolling_mean 50 1 col_close.
Definition col_ma200 := rolling_mean 200 1 col_close.

Definition col_delta := diff col_close.
Definition col_gain :=
  rolling_mean 14 1 (where_ (fun d => fgtb d (Fin 0)) (Fin 0) col_delta).
Definition col_loss :=
  rolling_mean 14 1
    (map fneg (where_ (fun d => fltb d (Fin 0)) (Fin 0) col_delta)).
Definition col_rs := zip_with fdiv col_gain (replace (Fin 0) NaN col_loss).
Definition col_rsi :=
  fillna (Fin 50)
    (map (fun rs => fsub (Fin 100) (fdiv (Fin 100) (fadd (Fin 1) rs))) col_rs).

Definition col_volume_ma20 := rolling_mean 20 1 col_volume.
Definition col_volume_ratio :=
  zip_with fdiv col_volume (replace (Fin 0) (Fin 1) col_volume_ma20).

Definition col_high_52w := rolling_max 252 20 col_high.
Definition col_low_52w := rolling_min 252 20 col_low.
Definition col_price_range := zip_with fsub col_high_52w col_low_52w.
Definition col_position_52w :=
  map (fun x => fmul x (Fin 100))
      (zip_with fdiv (zip_with fsub col_close col_low_52w)
                     (replace (Fin 0) (Fin 1) col_price_range)).

Definition col_price_change_5d := pct_change 5 col_close.
Definition col_price_change_20d := pct_change 20 col_close.
Definition col_price_change_60d := pct_change 60 col_close.

Definition col_golden_cross :=
  zip_with andb (zip_with fgtb col_ma20 col_ma50)
                (zip_with fleb (shift 1 col_ma20) (shift 1 col_ma50)).
Definition col_death_cross :=
  zip_with andb (zip_with fltb col_ma20 col_ma50)
                (zip_with fgeb (shift 1 col_ma20) (shift 1 col_ma50)).
Definition col_ma_aligned :=
  zip_with andb (zip_with fgtb col_ma20 col_ma50)
                (zip_with fgtb col_ma50 col_ma200).

(** Row [i] of the frame [_calculate_technical_indicators] returns. *)
Definition indicator_row (i : nat) : Row.t :=
  {| Row.close := col_close !! i;
     Row.ma5 := col_ma5 !! i;
     Row.ma20 := col_ma20 !! i;
     Row.ma50 := col_ma50 !! i;
     Row.ma200 := col_ma200 !! i;
     Row.rsi := col_rsi !! i;
     Row.volume_ma20 := col_volume_ma20 !! i;
     Row.volume_ratio := col_volume_ratio !! i;
     Row.high_52w := col_high_52w !! i;
     Row.low_52w := col_low_52w !! i;
     Row.position_52w := col_position_52w !! i;
     Row.price_change_5d := col_price_change_5d !! i;
     Row.price_change_20d := col_price_change_20d !! i;
     Row.price_change_60d := col_price_change_60d !! i;
     Row.golden_cross := col_golden_cross !! i;
     Row.death_cross := col_death_cross !! i;
     Row.ma_aligned := col_ma_aligned !! i |}.

Definition _calculate_technical_indicators : list Row.t :=
  map indicator_row (seq 0 (length df)).

End Columns.

(** One cell of the RSI column, from the cells of the average gain and the
    average loss on the same bar. *)
Definition rsi_of (gain loss : float64) : float64 :=
  let rs := fdiv gain (if feqb loss (Fin 0) then NaN else loss) in
  let rsi := fsub (Fin 100) (fdiv (Fin 100) (fadd (Fin 1) rs)) in
  if isna rsi then Fin 50 else rsi.

(** [row.get(key, d)]. *)
Definition get {A} (cell : option A) (d : A) : A := default d cell.

Definition _classify_wave_stage (row : Row.t) : Z * string :=
  let close := get (Row.close row) (Fin 0) in
  let ma20 := get (Row.ma20 row) (Fin 0) in
  let ma50 := get (Row.ma50 row) (Fin 0) in
  let ma200 := get (Row.ma200 row) (Fin 0) in
  let rsi := get (Row.rsi row) (Fin 50) in
  let position_52w := get (Row.position_52w row) (Fin 50) in
  let volume_ratio := get (Row.volume_ratio row) (Fin 1) in
  let price_change_20d := get (Row.price_change_20d row) (Fin 0) in
  let ma_aligned := get (Row.ma_aligned row) false in
  if isna ma50 || isna ma200 || feqb ma50 (Fin 0) || feqb ma200 (Fin 0)
  then (50%Z, "Insufficient Data")
  else if ma_aligned
          && (fleb (Fin 60) position_52w && fleb position_52w (Fin 90))
          && fgeb volume_ratio (Fin 1.3)
          && (fleb (Fin 55) rsi && fleb rsi (Fin 75))
          && fgeb price_change_20d (Fin 0.10)
  then (90%Z, "Stage 2 Mid (Strong Uptrend)")
  else if fgtb ma20 ma50
          && (fleb (Fin 40) position_52w && fleb position_52w (Fin 75))
          && fgeb close (fmul ma20 (Fin 0.98))
          && fgeb volume_ratio (Fin 1.2)
  then (80%Z, "Stage 2 Early (Early Uptrend)")
  else
    let ma_convergence :=
      if fgtb ma50 (Fin 0)
      then fltb (fdiv (fabs (fsub ma20 ma50)) ma50) (Fin 0.03)
      else false in
    if ma_convergence
       && (fleb (Fin 25) position_52w && fleb position_52w (Fin 60))
       && (fleb (Fin 45) rsi && fleb rsi (Fin 65))
    then (70%Z, "Stage 1-2 Transition")
    else if fgtb ma20 ma50
            && (fleb (Fin 30) position_52w && fleb position_52w (Fin 70))
            && fgeb volume_ratio (Fin 0.8)
    then (60%Z, "General Uptrend")
    else if fltb ma20 ma50 && fltb ma50 ma200 && fltb rsi (Fin 40)
    then (30%Z, "Stage 4 (Decline)")
    else if fgeb position_52w (Fin 75) && fltb volume_ratio (Fin 0.8)
    then (40%Z, "Stage 3 (Distribution)")
    else if fltb position_52w (Fin 40)
            && fltb (fabs price_change_20d) (Fin 0.05)
    then (50%Z, "Stage 1 (Base)")
    else (50%Z, "Neutral").

Definition _calculate_fundamental_score (row : Row.t) : Z :=
  let score := 10%Z in
  let volume_ratio := get (Row.volume_ratio row) (Fin 1) in
  let score :=
    if fgeb volume_ratio (Fin 1.5) then (score + 5)%Z
    else if fgeb volume_ratio (Fin 1.2) then (score + 3)%Z
    else score in
  let rsi := get (Row.rsi row) (Fin 50) in
  let score :=
    if fleb (Fin 50) rsi && fleb rsi (Fin 70) then (score + 5)%Z
    else if fleb (Fin 40) rsi && fltb rsi (Fin 50) then (score + 2)%Z
    else score in
  Z.min 20 score.

(** The conditions of the first and of the fourth rule of the cascade, and
    the guard in front of it, on the cells as the classifier reads them. *)
Definition strong_uptrend_conditions (row : Row.t) : Prop :=
  let rsi := get (Row.rsi row) (Fin 50) in
  let position_52w := get (Row.position_52w row) (Fin 50) in
  let volume_ratio := get (Row.volume_ratio row) (Fin 1) in
  let price_change_20d := get (Row.price_change_20d row) (Fin 0) in
  get (Row.ma_aligned row) false = true
  /\ fleb (Fin 60) position_52w = true /\ fleb position_52w (Fin 90) = true
  /\ fgeb volume_ratio (Fin 1.3) = true
  /\ fleb (Fin 55) rsi = true /\ fleb rsi (Fin 75) = true
  /\ fgeb price_change_20d (Fin 0.10) = true.

Definition general_uptrend_conditions (row : Row.t) : Prop :=
  let ma20 := get (Row.ma20 row) (Fin 0) in
  let ma50 := get (Row.ma50 row) (Fin 0) in
  let position_52w := get (Row.position_52w row) (Fin 50) in
  let volume_ratio := get (Row.volume_ratio row) (Fin 1) in
  fgtb ma20 ma50 = true
  /\ fleb (Fin 30) position_52w = true /\ fleb position_52w (Fin 70) = true
  /\ fgeb volume_ratio (Fin 0.8) = true.

Definition averages_usable (row : Row.t) : Prop :=
  let ma50 := get (Row.ma50 row) (Fin 0) in
  let ma200 := get (Row.ma200 row) (Fin 0) in
  isna ma50 = false /\ isna ma200 = false
  /\ feqb ma50 (Fin 0) = false /\ feqb ma200 (Fin 0) = false.

(** Python's [round(x, ndigits)]: to the nearest multiple of [10^-ndigits],
    halves to the even neighbour. *)
Definition round_half_even (x : Q) : Z :=
  let f := Qfloor x in
  let r := (x - inject_Z f)%Q in
  if Qltb r (1 # 2) then f
  else if Qltb (1 # 2) r then (f + 1)%Z
  else if Z.even f then f else (f + 1)%Z.

Definition round (x : Q) (ndigits : Z) : Q :=
  (inject_Z (round_half_even (x * 10 ^ ndigits)) / 10 ^ ndigits)%Q.

Section Analyzer.

(** The two attributes of the analyzer object. *)
Variable prices_df : list PriceBar.t.
Variable institutional_df : option (list InstRow.t).

Definition insufficient_data (ticker : string) : Result.t :=
  {| Result.ticker := ticker;
     Result.wave_score := 0;
     Result.wave_stage := "Insufficient Data";
     Result.final_investment_score := 0;
     Result.investment_grade := "분석 불가";
     Result.supply_demand_score := None;
     Result.supply_demand_stage := None;
     Result.fundamental_score := None |}.

Definition analysis_error (ticker : string) : Result.t :=
  {| Result.ticker := ticker;
     Result.wave_score := 0;
     Result.wave_stage := "Error";
     Result.final_investment_score := 0;
     Result.investment_grade := "분석 오류";
     Result.supply_demand_score := None;
     Result.supply_demand_stage := None;
     Result.fundamental_score := None |}.

(** The flow score and stage looked up for [ticker], [0] and ["N/A"] when
    the table or the instrument's row is missing. *)
Definition supply_demand (ticker : string) : Z * string :=
  match institutional_df with
  | Some inst =>
      if negb (Nat.eqb (length inst) 0) then
        match List.filter (fun r => String.eqb (InstRow.ticker r) ticker) inst with
        | inst_row :: _ =>
            (get (InstRow.supply_demand_score inst_row) 0%Z,
             get (InstRow.supply_demand_stage inst_row) "N/A")
        | [] => (0%Z, "N/A")
        end
      else (0%Z, "N/A")
  | None => (0%Z, "N/A")
  end.

(** The composite of the three scores (line 267). *)
Definition final_score (wave_score fundamental_score supply_demand_score : Z) : Q :=
  (inject_Z wave_score * 0.6 + inject_Z fundamental_score * 1.0
   + inject_Z supply_demand_score * 0.2)%Q.

Definition investment_grade (final_score : Q) : string :=
  if Qle_bool 85 final_score then "S급 (즉시 매수)"
  else if Qle_bool 75 final_score then "A급 (적극 매수)"
  else if Qle_bool 65 final_score then "B급 (매수 고려)"
  else if Qle_bool 55 final_score then "C급 (중립)"
  else if Qle_bool 45 final_score then "D급 (매도 고려)"
  else "F급 (회피)".

(** [self.prices_df[self.prices_df['ticker'] == ticker]]. *)
Definition rows_of (ticker : string) : list PriceBar.t :=
  List.filter (fun b => String.eqb (PriceBar.ticker b) ticker) prices_df.

(** The grade table of the specification, as a relation between a final
    score and a grade. *)
Definition graded_by_thresholds (score : Q) (grade : string) : Prop :=
  ((85 <= score)%Q -> grade = "S급 (즉시 매수)")
  /\ ((75 <= score)%Q /\ (score < 85)%Q -> grade = "A급 (적극 매수)")
  /\ ((65 <= score)%Q /\ (score < 75)%Q -> grade = "B급 (매수 고려)")
  /\ ((55 <= score)%Q /\ (score < 65)%Q -> grade = "C급 (중립)")
  /\ ((45 <= score)%Q /\ (score < 55)%Q -> grade = "D급 (매도 고려)")
  /\ ((score < 45)%Q -> grade = "F급 (회피)").

Definition analyze_stock (ticker : string) : Result.t + exn :=
  let stock_data := rows_of ticker in
  if Nat.eqb (length stock_data) 0 || (length stock_data <? 20)%nat
  then inl (insufficient_data ticker)
  else
    match last (_calculate_technical_indicators stock_data) with
    | None => inr IndexError
    | Some latest =>
        let '(wave_score, wave_stage) := _classify_wave_stage latest in
        let fundamental_score := _calculate_fundamental_score latest in
        let '(supply_demand_score, supply_demand_stage) := supply_demand ticker in
        let final := final_score wave_score fundamental_score supply_demand_score in
        let grade := investment_grade final in
        inl {| Result.ticker := ticker;
               Result.wave_score := wave_score;
               Result.wave_stage := wave_stage;
               Result.final_investment_score := round final 2;
               Result.investment_grade := grade;
               Result.supply_demand_score := Some supply_demand_score;
               Result.supply_demand_stage := Some supply_demand_stage;
               Result.fundamental_score := Some fundamental_score |}
    end.

Context `{SortValues}.

(** The list [results] the loop of [analyze_all_stocks] builds, one entry per
    ticker in order of first appearance; a raised exception becomes the
    error entry. *)
Definition collect_results : list Result.t :=
  map (fun ticker =>
         match analyze_stock ticker with
         | inl result => result
         | inr _ => analysis_error ticker
         end)
      (unique (map PriceBar.ticker prices_df)).

(** [result_df.sort_values('final_investment_score', ascending=False)] on the
    frame built from [results].  For a price table without rows [results]
    is empty, the frame has no columns and the call raises [KeyError];
    [main] returns before the analysis in that case.  Here the empty list
    stands for it. *)
Definition analyze_all_stocks : list Result.t :=
  sort_values Result.final_investment_score false collect_results.

End Analyzer.

(** Results of equal final score stand in [output] in the order they have
    in [input]. *)
Definition ties_in_input_order (input output : list Result.t) : Prop :=
  forall score : Q,
    List.filter (fun r => Qeq_bool (Result.final_investment_score r) score) output
    = List.filter (fun r => Qeq_bool (Result.final_investment_score r) score) input.

End Analysis2.

(* ================================================================= *)
(** ** all_institutional_trend_data.py *)

Module InstitutionalTrend.

(** A parsed row of the investor table; a cell that failed to parse is NaN,
    here [None]. *)
Module FlowRecord.
Record t : Type := mk {
  date : Z;
  institutional : option Q;
  foreign : option Q
}.
End FlowRecord.

(** The parsed frame: its rows and which of the two flow columns it has. *)
Module FlowFrame.
Record t : Type := mk {
  has_institutional : bool;
  has_foreign : bool;
  rows : list FlowRecord.t
}.
End FlowFrame.

Definition Qsum (xs : list Q) : Q := fold_right Qplus 0%Q xs.

(** The loop over [reversed(recent)]: the length of the leading run of
    strictly positive values. *)
Fixpoint leading_buys (vals : list Q) : Z :=
  match vals with
  | [] => 0
  | val :: rest => if Qltb 0 val then 1 + leading_buys rest else 0
  end.

Definition consecutive_buy (series : list Q) : Z :=
  leading_buys (rev (tail 10 series)).

(** [(recent_20 > 0).sum()]. *)
Definition count_buys (vals : list Q) : nat :=
  length (List.filter (fun v => Qltb 0 v) vals).

Definition buy_ratio (series : list Q) : float64 :=
  let recent_20 := tail 20 series in
  if (0 <? length recent_20)%nat
  then Fin (inject_Z (Z.of_nat (count_buys recent_20))
            / inject_Z (Z.of_nat (length recent_20)))
  else Fin 0.

(** The buy-day count of the trailing 20 entries over [days]. *)
Definition ratio_over (days : nat) (series : list Q) : float64 :=
  Fin (inject_Z (Z.of_nat (count_buys (tail 20 series)))
       / inject_Z (Z.of_nat days)).

(** [np.polyfit(x, y, 1)[0]] for [x = 0, 1, ..., len(y) - 1]: the slope of
    the least-squares line, in exact arithmetic. *)
Definition arange (n : nat) : list Q :=
  map (fun i => inject_Z (Z.of_nat i)) (seq 0 n).

Definition polyfit_slope (x y : list Q) : Q :=
  let n := inject_Z (Z.of_nat (length x)) in
  ((n * Qsum (zip_with Qmult x y) - Qsum x * Qsum y)
   / (n * Qsum (zip_with Qmult x x) - Qsum x * Qsum x))%Q.

(** [df[col].fillna(0)]. *)
Definition column (cell : FlowRecord.t -> option Q)
    (rows : list FlowRecord.t) : list Q :=
  map (fun r => default 0%Q (cell r)) rows.

Section Metrics.

Context `{SortValues}.

(** [df.sort_values('date', ascending=True).reset_index(drop=True)]. *)
Definition by_date (df : FlowFrame.t) : list FlowRecord.t :=
  sort_values (fun r => inject_Z (FlowRecord.date r)) true (FlowFrame.rows df).

Definition calculate_trend_metrics (df : FlowFrame.t) : gmap string float64 :=
  if Nat.eqb (length (FlowFrame.rows df)) 0 || (length (FlowFrame.rows df) <? 5)%nat
  then ∅
  else
    let rows := by_date df in
    let metrics : gmap string float64 := ∅ in
    let metrics :=
      if FlowFrame.has_institutional df then
        let inst := column FlowRecord.institutional rows in
        let metrics := <["inst_5d_sum" := Fin (Qsum (tail 5 inst))]> metrics in
        let metrics := <["inst_10d_sum" := Fin (Qsum (tail 10 inst))]> metrics in
        let metrics := <["inst_20d_sum" := Fin (Qsum (tail 20 inst))]> metrics in
        let metrics := <["inst_consecutive_buy" := of_Z (consecutive_buy inst)]> metrics in
        let metrics := <["inst_buy_ratio" := buy_ratio inst]> metrics in
        if (5 <=? length inst)%nat then
          let x := arange (length (tail 20 inst)) in
          let y := tail 20 inst in
          if Nat.eqb (length x) (length y) && (1 <? length x)%nat
          then <["inst_trend_slope" := Fin (polyfit_slope x y)]> metrics
          else metrics
        else metrics
      else metrics in
    let metrics :=
      if FlowFrame.has_foreign df then
        let frgn := column FlowRecord.foreign rows in
        let metrics := <["frgn_5d_sum" := Fin (Qsum (tail 5 frgn))]> metrics in
        let metrics := <["frgn_10d_sum" := Fin (Qsum (tail 10 frgn))]> metrics in
        let metrics := <["frgn_20d_sum" := Fin (Qsum (tail 20 frgn))]> metrics in
        let metrics := <["frgn_consecutive_buy" := of_Z (consecutive_buy frgn)]> metrics in
        let metrics := <["frgn_buy_ratio" := buy_ratio frgn]> metrics in
        if (5 <=? length frgn)%nat then
          let x := arange (length (tail 20 frgn)) in
          let y := tail 20 frgn in
          if Nat.eqb (length x) (length y) && (1 <? length x)%nat
          then <["frgn_trend_slope" := Fin (polyfit_slope x y)]> metrics
          else metrics
        else metrics
      else metrics in
    metrics.

End Metrics.

(** [metrics.get(key, 0)]. *)
Definition mget (metrics : gmap string float64) (key : string) : float64 :=
  default (Fin 0) (metrics !! key).

Definition supply_demand_stage (score : Z) : string :=
  if (80 <=? score)%Z then "Strong Accumulation"
  else if (65 <=? score)%Z then "Accumulation"
  else if (50 <=? score)%Z then "Neutral"
  else if (35 <=? score)%Z then "Distribution"
  else "Strong Distribution".

Definition calculate_supply_demand_score (metrics : gmap string float64) : Z * string :=
  if bool_decide (metrics = ∅) then (0%Z, "Unknown")
  else
    let score := 50%Z in
    let score := if fgtb (mget metrics "inst_20d_sum") (Fin 0) then (score + 10)%Z else score in
    let score := if fgeb (mget metrics "inst_consecutive_buy") (Fin 3) then (score + 10)%Z else score in
    let score := if fgeb (mget metrics "inst_buy_ratio") (Fin 0.6) then (score + 5)%Z else score in
    let score := if fgtb (mget metrics "inst_trend_slope") (Fin 0) then (score + 5)%Z else score in
    let score := if fgtb (mget metrics "frgn_20d_sum") (Fin 0) then (score + 10)%Z else score in
    let score := if fgeb (mget metrics "frgn_consecutive_buy") (Fin 3) then (score + 10)%Z else score in
    let score := if fgeb (mget metrics "frgn_buy_ratio") (Fin 0.6) then (score + 5)%Z else score in
    let score := if fgtb (mget metrics "frgn_trend_slope") (Fin 0) then (score + 5)%Z else score in
    let score := if fltb (mget metrics "inst_20d_sum") (Fin 0) then (score - 10)%Z else score in
    let score := if fltb (mget metrics "frgn_20d_sum") (Fin 0) then (score - 10)%Z else score in
    let score := Z.max 0 (Z.min 100 score) in
    (score, supply_demand_stage score).

End InstitutionalTrend.

(* ================================================================= *)
(** ** Sample inputs *)

Module Samples.

Import Analysis2 InstitutionalTrend.

(** An indicator row that meets the conditions of the first and of the
    fourth rule, with the three averages in strict order. *)
Definition aligned_row (ma200 : Q) : Row.t :=
  {| Row.close := Some (Fin 2);
     Row.ma5 := None;
     Row.ma20 := Some (Fin 2);
     Row.ma50 := Some (Fin 1);
     Row.ma200 := Some (Fin ma200);
     Row.rsi := Some (Fin 60);
     Row.volume_ma20 := None;
     Row.volume_ratio := Some (Fin 1.4);
     Row.high_52w := None;
     Row.low_52w := None;
     Row.position_52w := Some (Fin 65);
     Row.price_change_5d := None;
     Row.price_change_20d := Some (Fin 0.12);
     Row.price_change_60d := None;
     Row.golden_cross := None;
     Row.death_cross := None;
     Row.ma_aligned := Some true |}.

(** The flow metrics of the scenario in the specification. *)
Definition scenario_metrics : gmap string float64 :=
  <["inst_20d_sum" := Fin 500]>
    (<["inst_consecutive_buy" := Fin 4]>
       (<["inst_buy_ratio" := Fin 0.7]>
          (<["inst_trend_slope" := Fin 12.5]>
             (<["frgn_20d_sum" := Fin (-300)]>
                (<["frgn_consecutive_buy" := Fin 0]>
                   (<["frgn_buy_ratio" := Fin 0.35]>
                      (<["frgn_trend_slope" := Fin (-4)]> ∅))))))).

(** Two instruments with a single bar each. *)
Definition one_bar (ticker : string) : PriceBar.t :=
  {| PriceBar.ticker := ticker; PriceBar.date := 1;
     PriceBar.open := 100; PriceBar.high := 101; PriceBar.low := 99;
     PriceBar.close := 100; PriceBar.volume := 1000 |}.

Definition two_short_histories : list PriceBar.t :=
  [one_bar "000010"; one_bar "000020"].

(** 22 bars of one instrument, closes zigzagging upward, the last volume
    one and a half times the usual. *)
Definition bar (day : Z) (close volume : Q) : PriceBar.t :=
  {| PriceBar.ticker := "005930"; PriceBar.date := day;
     PriceBar.open := close; PriceBar.high := close + 1;
     PriceBar.low := close - 1; PriceBar.close := close;
     PriceBar.volume := volume |}.

Definition zigzag_history : list PriceBar.t :=
  [ bar 1 100 1000; bar 2 102 1000; bar 3 101 1000; bar 4 103 1000;
    bar 5 102 1000; bar 6 104 1000; bar 7 103 1000; bar 8 105 1000;
    bar 9 104 1000; bar 10 106 1000; bar 11 105 1000; bar 12 107 1000;
    bar 13 106 1000; bar 14 108 1000; bar 15 107 1000; bar 16 109 1000;
    bar 17 108 1000; bar 18 110 1000; bar 19 109 1000; bar 20 111 1000;
    bar 21 110 1000; bar 22 112 1500 ].

(** 51 bars meeting the bar invariants (high above open, close and low;
    volume not negative): a first bar closing at -1150, then 50 closes
    rising from 10 to 36 in steps of +2, -1 that sum to 1150, so that the
    200-bar average of the last row is exactly 0. *)
Definition rising_close (k : nat) : Q :=
  if Nat.even k then inject_Z (10 + Z.of_nat (k / 2))
  else inject_Z (12 + Z.of_nat (k / 2)).

Definition offset_history : list PriceBar.t :=
  {| PriceBar.ticker := "000030"; PriceBar.date := 0;
     PriceBar.open := -1150; PriceBar.high := 650; PriceBar.low := -1150;
     PriceBar.close := -1150; PriceBar.volume := 100 |}
  :: map (fun k =>
            {| PriceBar.ticker := "000030"; PriceBar.date := Z.of_nat (S k);
               PriceBar.open := rising_close k;
               PriceBar.high := rising_close k + 1;
               PriceBar.low := rising_close k - 1;
               PriceBar.close := rising_close k;
               PriceBar.volume := if Nat.eqb k 49 then 200 else 100 |})
         (seq 0 50).

(** Three bars without any trading: the volume average is 0. *)
Definition untraded_history : list PriceBar.t :=
  [ bar 1 100 0; bar 2 100 0; bar 3 100 0 ].

(** A flow table for the zigzag instrument. *)
Definition flow_table : list InstRow.t :=
  [ {| InstRow.ticker := "005930";
       InstRow.supply_demand_score := Some 70%Z;
       InstRow.supply_demand_stage := Some "Accumulation" |} ].

(** Five days of flows: four net-buy days for the institutional class, two
    for the foreign class (one cell failed to parse). *)
Definition five_days : FlowFrame.t :=
  {| FlowFrame.has_institutional := true;
     FlowFrame.has_foreign := true;
     FlowFrame.rows :=
       [ {| FlowRecord.date := 1; FlowRecord.institutional := Some 10%Q;
            FlowRecord.foreign := Some (-1)%Q |};
         {| FlowRecord.date := 2; FlowRecord.institutional := Some 20%Q;
            FlowRecord.foreign := Some 2%Q |};
         {| FlowRecord.date := 3; FlowRecord.institutional := Some (-5)%Q;
            FlowRecord.foreign := None |};
         {| FlowRecord.date := 4; FlowRecord.institutional := Some 30%Q;
            FlowRecord.foreign := Some 4%Q |};
         {| FlowRecord.date := 5; FlowRecord.institutional := Some 40%Q;
            FlowRecord.foreign := Some (-5)%Q |} ] |}.

End Samples.

(* ================================================================= *)
(** ** dashboard/utils.py *)

Module Dashboard.

Import Analysis2.

Definition get_color_by_score (score : float64) : string :=
  if fgeb score (Fin 80) then "#00C853"
  else if fgeb score (Fin 65) then "#64DD17"
  else if fgeb score (Fin 50) then "#FFC107"
  else if fgeb score (Fin 35) then "#FF9800"
  else "#F44336".

Definition grade_colors : gmap string string :=
  <["S급 (즉시 매수)" := "#00C853"]>
    (<["A급 (적극 매수)" := "#64DD17"]>
       (<["B급 (매수 고려)" := "#CDDC39"]>
          (<["C급 (중립)" := "#FFC107"]>
             (<["D급 (매도 고려)" := "#FF9800"]>
                (<["F급 (회피)" := "#F44336"]> ∅))))).

Definition get_grade_color (grade : string) : string :=
  default "#9E9E9E" (grade_colors !! grade).

(** [DataFrame.head(n)]: the first [n] rows, all but the last [-n] rows for
    a negative [n]. *)
Definition head {A} (n : Z) (rows : list A) : list A :=
  if (0 <=? n)%Z then firstn (Z.to_nat n) rows
  else firstn (length rows - Z.to_nat (- n)) rows.

Section TopStocks.

Context `{SortValues}.

Definition get_top_stocks (df : list Result.t) (n : Z) (ascending : bool)
    : list Result.t :=
  if Nat.eqb (length df) 0 then []
  else head n (sort_values Result.final_investment_score ascending df).

End TopStocks.

(** The dictionary of [get_summary_stats], without its [analysis_date]
    entry (the date column is not part of [Result.t]). *)
Module Summary.
Record t : Type := mk {
  total_stocks : nat;
  avg_score : Q;
  max_score : Q;
  min_score : Q;
  s_grade_count : nat;
  a_grade_count : nat
}.
End Summary.

(** [Series.mean()], [Series.max()] and [Series.min()] of a series without
    NaN. *)
Definition series_mean (xs : list Q) : Q :=
  (InstitutionalTrend.Qsum xs / inject_Z (Z.of_nat (length xs)))%Q.

Definition series_max (xs : list Q) : Q :=
  match xs with
  | [] => 0%Q
  | x :: rest => fold_left Qmax rest x
  end.

Definition series_min (xs : list Q) : Q :=
  match xs with
  | [] => 0%Q
  | x :: rest => fold_left Qmin rest x
  end.

Definition count_grade (grade : string) (df : list Result.t) : nat :=
  length (List.filter (fun r => String.eqb (Result.investment_grade r) grade) df).

Definition get_summary_stats (df : list Result.t) : option Summary.t :=
  if Nat.eqb (length df) 0 then None
  else
    let scores := map Result.final_investment_score df in
    Some {| Summary.total_stocks := length df;
            Summary.avg_score := series_mean scores;
            Summary.max_score := series_max scores;
            Summary.min_score := series_min scores;
            Summary.s_grade_count := count_grade "S급 (즉시 매수)" df;
            Summary.a_grade_count := count_grade "A급 (적극 매수)" df |}.

End Dashboard.

(* ================================================================= *)
(** ** notifier.py *)

Module Notifier.

Import Analysis2.

(** [Series.isin(values)]. *)
Definition isin (value : string) (values : list string) : bool :=
  existsb (String.eqb value) values.

Section Picks.

(** [Series.str.zfill(6)], applied to the tickers read back from the
    results file; the picks do not depend on what it does. *)
Variable zfill6 : string -> string.

Definition with_ticker (ticker : string) (r : Result.t) : Result.t :=
  {| Result.ticker := ticker;
     Result.wave_score := Result.wave_score r;
     Result.wave_stage := Result.wave_stage r;
     Result.final_investment_score := Result.final_investment_score r;
     Result.investment_grade := Result.investment_grade r;
     Result.supply_demand_score := Result.supply_demand_score r;
     Result.supply_demand_stage := Result.supply_demand_stage r;
     Result.fundamental_score := Result.fundamental_score r |}.

(** [StockNotifier.get_new_picks]: [results_file] is the table stored in
    the results file, [None] when the file does not exist. *)
Definition get_new_picks (results_file : option (list Result.t))
    (grades : option (list string)) : list Result.t :=
  let grades :=
    match grades with
    | None => ["S급 (즉시 매수)"; "A급 (적극 매수)"]
    | Some grades => grades
    end in
  match results_file with
  | None => []
  | Some rows =>
      let df := map (fun r => with_ticker (zfill6 (Result.ticker r)) r) rows in
      List.filter (fun r => isin (Result.investment_grade r) grades) df
  end.

End Picks.

End Notifier.

(* ================================================================= *)
(** ** all_institutional_trend_data.py: the collection loop *)

Module Collection.

Import Analysis2 InstitutionalTrend.

(** A row of the stock list. *)
Module Stock.
Record t : Type := mk {
  ticker : string;
  name : string;
  market : option string
}.
End Stock.

(** The dictionary [analyze_institutional_trend] returns; the metrics are
    spread into it in the source and kept as one field here. *)
Module Trend.
Record t : Type := mk {
  ticker : string;
  name : string;
  market : string;
  supply_demand_score : Z;
  supply_demand_stage : string;
  metrics : gmap string float64
}.
End Trend.

Inductive exception : Type := Exception.

Section Scraping.

Context `{SortValues}.

(** What the code gets from outside: the frame scraped from the web pages
    ([get_investor_trading_data], which catches its own failures), whether
    that frame is empty, its parsed form ([parse_investor_data], which may
    raise on unexpected content), and [Series.str.zfill(6)]. *)
Variable Raw : Type.
Variable raw_empty : Raw -> bool.
Variable get_investor_trading_data : string -> Z -> Raw.
Variable parse_investor_data : Raw -> FlowFrame.t + exception.
Variable zfill6 : string -> string.

Definition no_data (ticker name market stage : string) : Trend.t :=
  {| Trend.ticker := ticker; Trend.name := name; Trend.market := market;
     Trend.supply_demand_score := 0;
     Trend.supply_demand_stage := stage;
     Trend.metrics := ∅ |}.

Definition analyze_institutional_trend (ticker name market : string)
    : Trend.t + exception :=
  let raw_data := get_investor_trading_data ticker 5 in
  if raw_empty raw_data then inl (no_data ticker name market "Unknown")
  else
    match parse_investor_data raw_data with
    | inr e => inr e
    | inl parsed_data =>
        if Nat.eqb (length (FlowFrame.rows parsed_data)) 0
        then inl (no_data ticker name market "Unknown")
        else
          let metrics := calculate_trend_metrics parsed_data in
          let '(score, stage) := calculate_supply_demand_score metrics in
          inl {| Trend.ticker := ticker; Trend.name := name;
                 Trend.market := market;
                 Trend.supply_demand_score := score;
                 Trend.supply_demand_stage := stage;
                 Trend.metrics := metrics |}
    end.

(** [stocks_list] is the content of the stock list file, [None] when the
    file does not exist. *)
Definition collect_all_institutional_data
    (stocks_list : option (list Stock.t)) : list Trend.t :=
  match stocks_list with
  | None => []
  | Some stocks_df =>
      map (fun row =>
             let ticker := zfill6 (Stock.ticker row) in
             let name := Stock.name row in
             let market := default "KOSPI" (Stock.market row) in
             match analyze_institutional_trend ticker name market with
             | inl result => result
             | inr _ => no_data ticker name market "Error"
             end)
          stocks_df
  end.

(** The three columns of the saved table that [analysis2.py] reads back. *)
Definition institutional_table (results : list Trend.t) : list InstRow.t :=
  map (fun r =>
         {| InstRow.ticker := zfill6 (Trend.ticker r);
            InstRow.supply_demand_score := Some (Trend.supply_demand_score r);
            InstRow.supply_demand_stage := Some (Trend.supply_demand_stage r) |})
      results.

End Scraping.

(** A collected entry either carries no data (score 0) or a score of at
    least 30. *)
Definition scored_or_blank (r : Trend.t) : Prop :=
  (Trend.supply_demand_score r = 0%Z
   /\ (Trend.supply_demand_stage r = "Unknown"
       \/ Trend.supply_demand_stage r = "Error"))
  \/ ((30 <= Trend.supply_demand_score r <= 100)%Z
      /\ Trend.supply_demand_stage r
         = supply_demand_stage (Trend.supply_demand_score r)).

End Collection.

(* ================================================================= *)
(** ** More sample inputs *)

Module Fixtures.

Import Analysis2 InstitutionalTrend Collection.

(** The row of the scenario in the specification, with the volume ratio
    left open. *)
Definition uptrend_row (volume_ratio : Q) : Row.t :=
  {| Row.close := Some (Fin 120);
     Row.ma5 := None;
     Row.ma20 := Some (Fin 110);
     Row.ma50 := Some (Fin 100);
     Row.ma200 := Some (Fin 90);
     Row.rsi := Some (Fin 60);
     Row.volume_ma20 := None;
     Row.volume_ratio := Some (Fin volume_ratio);
     Row.high_52w := None;
     Row.low_52w := None;
     Row.position_52w := Some (Fin 70);
     Row.price_change_5d := None;
     Row.price_change_20d := Some (Fin 0.12);
     Row.price_change_60d := None;
     Row.golden_cross := None;
     Row.death_cross := None;
     Row.ma_aligned := Some true |}.

(** 51 bars: a low first bar with a high spike, then the 50 rising closes
    of [Samples.rising_close]; the last row is in stage 90. *)
Definition uptrend_history : list PriceBar.t :=
  {| PriceBar.ticker := "005930"; PriceBar.date := 0;
     PriceBar.open := 5; PriceBar.high := 45; PriceBar.low := 4;
     PriceBar.close := 5; PriceBar.volume := 100 |}
  :: map (fun k =>
            {| PriceBar.ticker := "005930"; PriceBar.date := Z.of_nat (S k);
               PriceBar.open := Samples.rising_close k;
               PriceBar.high := Samples.rising_close k + 1;
               PriceBar.low := Samples.rising_close k - 1;
               PriceBar.close := Samples.rising_close k;
               PriceBar.volume := if Nat.eqb k 49 then 200 else 100 |})
         (seq 0 50).

Definition flow_day (date : Z) (institutional foreign : Q) : FlowRecord.t :=
  {| FlowRecord.date := date;
     FlowRecord.institutional := Some institutional;
     FlowRecord.foreign := Some foreign |}.

(** Five days on which both classes buy, and five on which both sell. *)
Definition buying_week : FlowFrame.t :=
  {| FlowFrame.has_institutional := true;
     FlowFrame.has_foreign := true;
     FlowFrame.rows :=
       [ flow_day 1 10 5; flow_day 2 30 5; flow_day 3 20 5;
         flow_day 4 15 5; flow_day 5 5 5 ] |}.

Definition selling_week : FlowFrame.t :=
  {| FlowFrame.has_institutional := true;
     FlowFrame.has_foreign := true;
     FlowFrame.rows :=
       [ flow_day 1 (-50) (-5); flow_day 2 (-40) (-5); flow_day 3 (-30) (-5);
         flow_day 4 (-20) (-5); flow_day 5 (-10) (-5) ] |}.

(** [Samples.five_days] with its rows in the opposite order. *)
Definition five_days_reversed : FlowFrame.t :=
  {| FlowFrame.has_institutional := true;
     FlowFrame.has_foreign := true;
     FlowFrame.rows := rev (FlowFrame.rows Samples.five_days) |}.

(** The analysis of [uptrend_history] against [Samples.flow_table], and a
    results table of two instruments. *)
Definition uptrend_result : Result.t :=
  {| Result.ticker := "005930"; Result.wave_score := 90;
     Result.wave_stage := "Stage 2 Mid (Strong Uptrend)";
     Result.final_investment_score := 8800 # 100;
     Result.investment_grade := "S급 (즉시 매수)";
     Result.supply_demand_score := Some 70%Z;
     Result.supply_demand_stage := Some "Accumulation";
     Result.fundamental_score := Some 20%Z |}.

Definition two_results : list Result.t :=
  [ uptrend_result; insufficient_data "000010" ].

(** A scraper that finds the buying week for every ticker, and a stock
    list of one instrument. *)
Definition scraped (ticker : string) (pages : Z) : FlowFrame.t := buying_week.

Definition parsed (raw : FlowFrame.t) : FlowFrame.t + exception := inl raw.

Definition listed : list Stock.t :=
  [ {| Stock.ticker := "005930"; Stock.name := "Samsung Electronics";
       Stock.market := Some "KOSPI" |} ].

End Fixtures.

(* ================================================================= *)
(** * Properties *)

Import Analysis2 InstitutionalTrend.

(** ** Comparisons of rationals, reflected *)

Section Reflect.

Lemma Qltb_true (a b : Q) : Qltb a b = true <-> (a < b)%Q.
Proof.
  unfold Qltb. rewrite negb_true_iff. split.
  - intros Hf. apply Qnot_le_lt. intros Hle.
    apply Qle_bool_iff in Hle. congruence.
  - intros Hlt. destruct (Qle_bool b a) eqn:E; [| reflexivity].
    apply Qle_bool_iff in E. lra.
Qed.

Lemma Qltb_false (a b : Q) : Qltb a b = false <-> (b <= a)%Q.
Proof.
  unfold Qltb. rewrite negb_false_iff. apply Qle_bool_iff.
Qed.

Lemma Qle_bool_false (a b : Q) : Qle_bool a b = false <-> (b < a)%Q.
Proof.
  rewrite <- Qltb_true. unfold Qltb.
  destruct (Qle_bool a b); simpl; split; congruence.
Qed.

Lemma Qeq_bool_false (a b : Q) : Qeq_bool a b = false <-> ~ (a == b)%Q.
Proof.
  split.
  - apply Qeq_bool_neq.
  - intros Hne. destruct (Qeq_bool a b) eqn:E; [| reflexivity].
    apply Qeq_bool_iff in E. contradiction.
Qed.

End Reflect.

(** ** Sorting routines that meet the contract of [sort_values] *)

Section Insertion.

Context {A : Type}.
Variable R : A -> A -> Prop.
Variable before : A -> A -> bool.
Hypothesis R_trans : forall x y z, R x y -> R y z -> R x z.
Hypothesis before_true : forall x y, before x y = true -> R x y.
Hypothesis before_false : forall x y, before x y = false -> R y x.

Lemma insert_by_perm (x : A) (l : list A) :
  Permutation (x :: l) (insert_by before x l).
Proof.
  induction l as [| y l IH]; simpl; [reflexivity |].
  destruct (before x y); [reflexivity |].
  rewrite perm_swap. apply perm_skip, IH.
Qed.

Lemma isort_by_perm (l : list A) : Permutation l (isort_by before l).
Proof.
  induction l as [| x l IH]; simpl; [reflexivity |].
  rewrite <- insert_by_perm. apply perm_skip, IH.
Qed.

Lemma insert_by_sorted (x : A) (l : list A) :
  StronglySorted R l -> StronglySorted R (insert_by before x l).
Proof.
  induction 1 as [| y l Hl IH Hy]; simpl.
  - constructor; constructor.
  - destruct (before x y) eqn:E.
    + constructor; [constructor; assumption |].
      constructor; [apply before_true, E |].
      eapply Forall_impl; [exact Hy |].
      intros z Hz. apply (R_trans x y z); [apply before_true, E | exact Hz].
    + constructor; [exact IH |].
      rewrite <- insert_by_perm. constructor; [apply before_false, E | exact Hy].
Qed.

Lemma isort_by_sorted (l : list A) : StronglySorted R (isort_by before l).
Proof.
  induction l as [| x l IH]; simpl; [constructor |].
  apply insert_by_sorted, IH.
Qed.

End Insertion.

Lemma key_ordered_trans {A} (key : A -> Q) (ascending : bool) (x y z : A) :
  key_ordered key ascending x y -> key_ordered key ascending y z ->
  key_ordered key ascending x z.
Proof. unfold key_ordered. destruct ascending; intros; lra. Qed.

Lemma before_stable_true {A} (key : A -> Q) ascending (x y : A) :
  before_stable key ascending x y = true -> key_ordered key ascending x y.
Proof.
  unfold before_stable, key_ordered. destruct ascending; apply Qle_bool_iff.
Qed.

Lemma before_stable_false {A} (key : A -> Q) ascending (x y : A) :
  before_stable key ascending x y = false -> key_ordered key ascending y x.
Proof.
  unfold before_stable, key_ordered.
  destruct ascending; intros Hf; apply Qle_bool_false in Hf; lra.
Qed.

Lemma before_strict_true {A} (key : A -> Q) ascending (x y : A) :
  before_strict key ascending x y = true -> key_ordered key ascending x y.
Proof.
  unfold before_strict, key_ordered.
  destruct ascending; intros Ht; apply Qltb_true in Ht; lra.
Qed.

Lemma before_strict_false {A} (key : A -> Q) ascending (x y : A) :
  before_strict key ascending x y = false -> key_ordered key ascending y x.
Proof.
  unfold before_strict, key_ordered. destruct ascending; apply Qltb_false.
Qed.

(** A routine that keeps rows of equal key in input order, as
    [kind='stable'] does. *)
Definition stable_sort : SortValues :=
  {| sort_values A key ascending rows :=
       isort_by (before_stable key ascending) rows;
     sort_values_perm A key ascending rows :=
       isort_by_perm (before_stable key ascending) rows;
     sort_values_sorted A key ascending rows :=
       isort_by_sorted (key_ordered key ascending) (before_stable key ascending)
         (key_ordered_trans key ascending)
         (before_stable_true key ascending)
         (before_stable_false key ascending) rows |}.

(** A second routine that meets the same contract; it puts rows of equal key
    in reverse input order.  Statements that quantify over the interface are
    exercised with both. *)
Definition reversing_sort : SortValues :=
  {| sort_values A key ascending rows :=
       isort_by (before_strict key ascending) rows;
     sort_values_perm A key ascending rows :=
       isort_by_perm (before_strict key ascending) rows;
     sort_values_sorted A key ascending rows :=
       isort_by_sorted (key_ordered key ascending) (before_strict key ascending)
         (key_ordered_trans key ascending)
         (before_strict_true key ascending)
         (before_strict_false key ascending) rows |}.

(** The stable routine leaves the rows of any one key in input order. *)
Section Stability.

Context {A : Type}.
Variable key : A -> Q.
Variable ascending : bool.
Variable score : Q.

Let tied (r : A) : bool := Qeq_bool (key r) score.

Lemma insert_stable_filter (x : A) (l : list A) :
  List.filter tied (insert_by (before_stable key ascending) x l)
  = List.filter tied (x :: l).
Proof.
  induction l as [| y l IH]; [reflexivity |].
  cbn [insert_by]. destruct (before_stable key ascending x y) eqn:E;
    [reflexivity |].
  cbn [List.filter] in *. rewrite IH.
  destruct (tied x) eqn:Ex, (tied y) eqn:Ey; try reflexivity.
  exfalso. unfold tied in Ex, Ey.
  apply Qeq_bool_iff in Ex, Ey.
  unfold before_stable in E.
  destruct ascending; apply Qle_bool_false in E; lra.
Qed.

Lemma isort_stable_filter (l : list A) :
  List.filter tied (isort_by (before_stable key ascending) l)
  = List.filter tied l.
Proof.
  induction l as [| x l IH]; [reflexivity |].
  cbn [isort_by fold_right].
  rewrite insert_stable_filter. cbn [List.filter].
  unfold isort_by in IH. rewrite IH. reflexivity.
Qed.

End Stability.


(** ** The proxy fundamental score *)

(** C9.  Whatever the indicator row holds (cells absent, NaN or infinite
    included), the proxy fundamental score lies between 10 and 20: the base
    of 10 is never reduced. *)
Theorem fundamental_score_at_least_base (row : Row.t) :
  (10 <= _calculate_fundamental_score row <= 20)%Z.
Proof.
  unfold _calculate_fundamental_score. cbv zeta.
  repeat match goal with
         | |- context [if ?b then _ else _] => destruct b
         end; lia.
Qed.

(** ** The flow scorer *)

Section FlowScorer.

Implicit Types metrics : gmap string float64.

Lemma bonus_as_term (b : bool) (score k : Z) :
  (if b then score + k else score)%Z = (score + (if b then k else 0))%Z.
Proof. destruct b; lia. Qed.

Lemma malus_as_term (b : bool) (score k : Z) :
  (if b then score - k else score)%Z = (score - (if b then k else 0))%Z.
Proof. destruct b; lia. Qed.

Lemma score_nonempty metrics :
  metrics <> ∅ ->
  calculate_supply_demand_score metrics =
    let raw :=
      (50
       + (if fgtb (mget metrics "inst_20d_sum") (Fin 0) then 10 else 0)
       + (if fgeb (mget metrics "inst_consecutive_buy") (Fin 3) then 10 else 0)
       + (if fgeb (mget metrics "inst_buy_ratio") (Fin 0.6) then 5 else 0)
       + (if fgtb (mget metrics "inst_trend_slope") (Fin 0) then 5 else 0)
       + (if fgtb (mget metrics "frgn_20d_sum") (Fin 0) then 10 else 0)
       + (if fgeb (mget metrics "frgn_consecutive_buy") (Fin 3) then 10 else 0)
       + (if fgeb (mget metrics "frgn_buy_ratio") (Fin 0.6) then 5 else 0)
       + (if fgtb (mget metrics "frgn_trend_slope") (Fin 0) then 5 else 0)
       - (if fltb (mget metrics "inst_20d_sum") (Fin 0) then 10 else 0)
       - (if fltb (mget metrics "frgn_20d_sum") (Fin 0) then 10 else 0))%Z in
    (Z.max 0 (Z.min 100 raw), supply_demand_stage (Z.max 0 (Z.min 100 raw))).
Proof.
  intros Hne. unfold calculate_supply_demand_score.
  rewrite bool_decide_eq_false_2 by exact Hne.
  cbv zeta. rewrite !bonus_as_term, !malus_as_term. reflexivity.
Qed.

Lemma mget_empty key : mget ∅ key = Fin 0.
Proof. unfold mget. rewrite lookup_empty. reflexivity. Qed.

(** C10.  Empty metrics score 0 with the label "Unknown"; any other
    dictionary, whatever its values, scores between 30 and 100.  So no score
    lies strictly between 0 and 30, and 0 comes from empty metrics only. *)
Theorem supply_demand_score_floor metrics :
  (metrics = ∅ /\ calculate_supply_demand_score metrics = (0%Z, "Unknown"))
  \/ (metrics <> ∅
      /\ (30 <= fst (calculate_supply_demand_score metrics) <= 100)%Z).
Proof.
  destruct (decide (metrics = ∅)) as [-> | Hne].
  - left. split; reflexivity.
  - right. split; [exact Hne |].
    rewrite score_nonempty by exact Hne. cbv zeta. unfold fst.
    repeat match goal with
           | |- context [if ?b then _ else _] => generalize b; intros []
           end; lia.
Qed.

(** C7.  The scenario of the specification: institutional 20-day sum +500,
    streak 4, buy ratio 0.7, positive slope; foreign 20-day sum -300 and no
    foreign bonus.  The score is 50+10+10+5+5-10 = 70, "Accumulation". *)
Theorem flow_score_scenario metrics :
  feqb (mget metrics "inst_20d_sum") (Fin 500) = true ->
  feqb (mget metrics "inst_consecutive_buy") (Fin 4) = true ->
  feqb (mget metrics "inst_buy_ratio") (Fin 0.7) = true ->
  fgtb (mget metrics "inst_trend_slope") (Fin 0) = true ->
  feqb (mget metrics "frgn_20d_sum") (Fin (-300)) = true ->
  fgeb (mget metrics "frgn_consecutive_buy") (Fin 3) = false ->
  fgeb (mget metrics "frgn_buy_ratio") (Fin 0.6) = false ->
  fgtb (mget metrics "frgn_trend_slope") (Fin 0) = false ->
  calculate_supply_demand_score metrics = (70%Z, "Accumulation").
Proof.
  intros Hsum Hstreak Hratio Hslope Hfsum Hfstreak Hfratio Hfslope.
  assert (Hne : metrics <> ∅).
  { intros ->. rewrite mget_empty in Hsum. discriminate Hsum. }
  rewrite score_nonempty by exact Hne.
  rewrite Hslope, Hfstreak, Hfratio, Hfslope.
  destruct (mget metrics "inst_20d_sum") as [a | | |]; try discriminate Hsum.
  destruct (mget metrics "inst_consecutive_buy") as [c | | |];
    try discriminate Hstreak.
  destruct (mget metrics "inst_buy_ratio") as [r | | |]; try discriminate Hratio.
  destruct (mget metrics "frgn_20d_sum") as [f | | |]; try discriminate Hfsum.
  simpl in Hsum, Hstreak, Hratio, Hfsum.
  apply Qeq_bool_iff in Hsum, Hstreak, Hratio, Hfsum.
  assert (Ha : fgtb (Fin a) (Fin 0) = true) by (apply Qltb_true; lra).
  assert (Ha' : fltb (Fin a) (Fin 0) = false) by (apply Qltb_false; lra).
  assert (Hc : fgeb (Fin c) (Fin 3) = true) by (apply Qle_bool_iff; lra).
  assert (Hr : fgeb (Fin r) (Fin 0.6) = true) by (apply Qle_bool_iff; lra).
  assert (Hf : fgtb (Fin f) (Fin 0) = false) by (apply Qltb_false; lra).
  assert (Hf' : fltb (Fin f) (Fin 0) = true) by (apply Qltb_true; lra).
  rewrite Ha, Ha', Hc, Hr, Hf, Hf'. reflexivity.
Qed.

Lemma flow_score_scenario_witness :
  calculate_supply_demand_score Samples.scenario_metrics = (70%Z, "Accumulation").
Proof.
  apply (flow_score_scenario Samples.scenario_metrics); vm_compute; reflexivity.
Defined.

End FlowScorer.

(** ** The stage classifier *)

Section StageClassifier.

(** C1 as stated fails: the guard on the 50-bar and 200-bar averages runs
    before the cascade.  A row with MA20 = 2 > MA50 = 1 > MA200 = 0 meets the
    conditions of rule 1 and of rule 4, and is classified
    (50, "Insufficient Data"). *)
Lemma zero_average_preempts_cascade :
  strong_uptrend_conditions (Samples.aligned_row 0)
  /\ general_uptrend_conditions (Samples.aligned_row 0)
  /\ _classify_wave_stage (Samples.aligned_row 0) = (50%Z, "Insufficient Data")
  /\ _classify_wave_stage (Samples.aligned_row 0)
     <> (90%Z, "Stage 2 Mid (Strong Uptrend)").
Proof.
  repeat split; vm_compute; congruence.
Qed.

(** Such a row is not only a value of the row type: it is the latest
    indicator row of [Samples.offset_history], and the analysis of that
    instrument reports the stage score 50 of the fallback. *)
Lemma zero_average_row_derived :
  exists latest : Row.t,
    last (_calculate_technical_indicators Samples.offset_history) = Some latest
    /\ Row.ma200 latest = Some (Fin (0 # 51))
    /\ Row.ma_aligned latest = Some true
    /\ strong_uptrend_conditions latest
    /\ general_uptrend_conditions latest
    /\ _classify_wave_stage latest = (50%Z, "Insufficient Data")
    /\ (exists result : Result.t,
          analyze_stock Samples.offset_history None "000030" = inl result
          /\ Result.wave_score result = 50%Z
          /\ Result.wave_stage result = "Insufficient Data").
Proof.
  eexists. split; [vm_compute; reflexivity |].
  do 5 (split; [repeat split; vm_compute; reflexivity |]).
  eexists. split; [vm_compute; reflexivity |]. split; reflexivity.
Qed.

(** C1, amended.  When the 50-bar and 200-bar averages are present and
    non-zero, a row meeting the conditions of rule 1 (stage 90) and of
    rule 4 (stage 60) is classified by rule 1: score 90, label
    "Stage 2 Mid (Strong Uptrend)". *)
Theorem first_rule_wins (row : Row.t) :
  averages_usable row ->
  strong_uptrend_conditions row ->
  general_uptrend_conditions row ->
  _classify_wave_stage row = (90%Z, "Stage 2 Mid (Strong Uptrend)").
Proof.
  intros (Hna50 & Hna200 & Hz50 & Hz200)
         (Hal & Hp60 & Hp90 & Hvr & Hr55 & Hr75 & Hchg) _.
  unfold _classify_wave_stage. cbv zeta in *.
  rewrite Hna50, Hna200, Hz50, Hz200. simpl orb. cbv iota.
  rewrite Hal, Hp60, Hp90, Hvr, Hr55, Hr75, Hchg. reflexivity.
Qed.

Lemma first_rule_wins_witness :
  _classify_wave_stage (Samples.aligned_row 0.5)
  = (90%Z, "Stage 2 Mid (Strong Uptrend)").
Proof.
  apply (first_rule_wins (Samples.aligned_row 0.5));
    repeat split; vm_compute; reflexivity.
Defined.

End StageClassifier.

(** ** The aggregator, one instrument *)

Section Aggregator.

Variable prices_df : list PriceBar.t.
Variable institutional_df : option (list InstRow.t).

(** C3.  With fewer than 20 bars for the ticker (none at all included) the
    analysis returns the sentinel: final score 0, stage "Insufficient Data",
    the "analysis impossible" grade, and none of the derived scores. *)
Theorem short_history_sentinel (ticker : string) :
  (length (rows_of prices_df ticker) < 20)%nat ->
  analyze_stock prices_df institutional_df ticker =
    inl {| Result.ticker := ticker;
           Result.wave_score := 0;
           Result.wave_stage := "Insufficient Data";
           Result.final_investment_score := 0;
           Result.investment_grade := "분석 불가";
           Result.supply_demand_score := None;
           Result.supply_demand_stage := None;
           Result.fundamental_score := None |}.
Proof.
  intros Hshort. unfold analyze_stock. cbv zeta.
  apply Nat.ltb_lt in Hshort. rewrite Hshort, orb_true_r. reflexivity.
Qed.

Lemma lookup_map {A B} (f : A -> B) (l : list A) (i : nat) :
  map f l !! i = f <$> (l !! i).
Proof. apply (list_lookup_fmap f l i). Qed.

Lemma latest_row (df : list PriceBar.t) :
  (0 < length df)%nat ->
  last (_calculate_technical_indicators df)
  = Some (indicator_row df (length df - 1)).
Proof.
  intros Hlen. rewrite last_lookup. unfold _calculate_technical_indicators.
  rewrite length_map, length_seq, lookup_map.
  rewrite lookup_seq_lt by lia. simpl. do 2 f_equal. lia.
Qed.

Lemma round_half_even_integer (x : Q) (k : Z) :
  (x == inject_Z k)%Q -> round_half_even x = k.
Proof.
  intros Hx. unfold round_half_even.
  rewrite (Qfloor_comp x (inject_Z k) Hx), Qfloor_Z.
  assert (Hlt : Qltb (x - inject_Z k) (1 # 2) = true)
    by (apply Qltb_true; lra).
  rewrite Hlt. reflexivity.
Qed.

Lemma final_score_hundredths (wave fundamental flow : Z) :
  (final_score wave fundamental flow * 100
   == inject_Z (wave * 60 + fundamental * 100 + flow * 20))%Q.
Proof.
  unfold final_score.
  rewrite !inject_Z_plus, !inject_Z_mult.
  change (inject_Z 60) with 60%Q. change (inject_Z 100) with 100%Q.
  change (inject_Z 20) with 20%Q. lra.
Qed.

(** Rounding to two decimals leaves the composite unchanged: it is a
    multiple of a fifth. *)
Lemma round_final_score (wave fundamental flow : Z) :
  (round (final_score wave fundamental flow) 2
   == final_score wave fundamental flow)%Q.
Proof.
  unfold round. change (10 ^ 2)%Q with 100%Q.
  rewrite (round_half_even_integer _ _ (final_score_hundredths wave fundamental flow)).
  rewrite <- final_score_hundredths. field.
Qed.

Lemma investment_grade_thresholds (score : Q) :
  graded_by_thresholds score (investment_grade score).
Proof.
  unfold graded_by_thresholds, investment_grade.
  destruct (Qle_bool 85 score) eqn:E85;
    [apply Qle_bool_iff in E85 | apply Qle_bool_false in E85];
  (destruct (Qle_bool 75 score) eqn:E75;
    [apply Qle_bool_iff in E75 | apply Qle_bool_false in E75]);
  (destruct (Qle_bool 65 score) eqn:E65;
    [apply Qle_bool_iff in E65 | apply Qle_bool_false in E65]);
  (destruct (Qle_bool 55 score) eqn:E55;
    [apply Qle_bool_iff in E55 | apply Qle_bool_false in E55]);
  (destruct (Qle_bool 45 score) eqn:E45;
    [apply Qle_bool_iff in E45 | apply Qle_bool_false in E45]);
  repeat split; intros; first [reflexivity | lra].
Qed.

Lemma graded_by_thresholds_equal (a b : Q) (grade : string) :
  (a == b)%Q -> graded_by_thresholds a grade -> graded_by_thresholds b grade.
Proof.
  unfold graded_by_thresholds.
  intros Hab (HS & HA & HB & HC & HD & HF).
  repeat split; intros;
    [apply HS | apply HA | apply HB | apply HC | apply HD | apply HF]; lra.
Qed.

(** C2.  With at least 20 bars the analysis returns a full result whose
    stage and fundamental scores are those of the latest indicator row, whose
    flow score is the one looked up, whose final score is
    stage x 0.6 + fundamental x 1.0 + flow x 0.2, and whose grade follows the
    thresholds 85/75/65/55/45 on that final score. *)
Theorem composite_score_and_grade (ticker : string) :
  (20 <= length (rows_of prices_df ticker))%nat ->
  exists (result : Result.t) (latest : Row.t) (wave fundamental flow : Z),
    analyze_stock prices_df institutional_df ticker = inl result
    /\ last (_calculate_technical_indicators (rows_of prices_df ticker))
       = Some latest
    /\ wave = fst (_classify_wave_stage latest)
    /\ fundamental = _calculate_fundamental_score latest
    /\ flow = fst (supply_demand institutional_df ticker)
    /\ Result.wave_score result = wave
    /\ Result.fundamental_score result = Some fundamental
    /\ Result.supply_demand_score result = Some flow
    /\ (Result.final_investment_score result
        == inject_Z wave * (6 # 10) + inject_Z fundamental * 1
           + inject_Z flow * (2 # 10))%Q
    /\ graded_by_thresholds (Result.final_investment_score result)
                            (Result.investment_grade result).
Proof.
  intros Hlen. unfold analyze_stock. cbv zeta.
  destruct (Nat.eqb_spec (length (rows_of prices_df ticker)) 0) as [E0 | _];
    [lia |].
  destruct (Nat.ltb_spec (length (rows_of prices_df ticker)) 20) as [E20 | _];
    [lia |].
  simpl orb. cbv iota.
  rewrite latest_row by lia.
  set (latest := indicator_row _ _).
  destruct (_classify_wave_stage latest) as [wave stage] eqn:Ewave.
  destruct (supply_demand institutional_df ticker) as [flow flow_stage] eqn:Eflow.
  eexists. exists latest, wave, (_calculate_fundamental_score latest), flow.
  split; [reflexivity |].
  cbn [Result.wave_score Result.fundamental_score Result.supply_demand_score
       Result.final_investment_score Result.investment_grade fst].
  split; [reflexivity |].
  split; [rewrite Ewave; reflexivity |].
  do 5 (split; [reflexivity |]).
  split.
  - rewrite round_final_score. unfold final_score. lra.
  - apply (graded_by_thresholds_equal
             (final_score wave (_calculate_fundamental_score latest) flow)).
    + symmetry. apply round_final_score.
    + apply investment_grade_thresholds.
Qed.

End Aggregator.

Lemma short_history_sentinel_witness :
  analyze_stock Samples.two_short_histories None "000010" =
    inl {| Result.ticker := "000010";
           Result.wave_score := 0;
           Result.wave_stage := "Insufficient Data";
           Result.final_investment_score := 0;
           Result.investment_grade := "분석 불가";
           Result.supply_demand_score := None;
           Result.supply_demand_stage := None;
           Result.fundamental_score := None |}.
Proof.
  apply (short_history_sentinel Samples.two_short_histories None "000010").
  vm_compute. lia.
Defined.

Lemma composite_score_and_grade_witness :
  exists (result : Result.t) (latest : Row.t) (wave fundamental flow : Z),
    analyze_stock Samples.zigzag_history (Some Samples.flow_table) "005930"
    = inl result
    /\ last (_calculate_technical_indicators
              (rows_of Samples.zigzag_history "005930")) = Some latest
    /\ wave = fst (_classify_wave_stage latest)
    /\ fundamental = _calculate_fundamental_score latest
    /\ flow = fst (supply_demand (Some Samples.flow_table) "005930")
    /\ Result.wave_score result = wave
    /\ Result.fundamental_score result = Some fundamental
    /\ Result.supply_demand_score result = Some flow
    /\ (Result.final_investment_score result
        == inject_Z wave * (6 # 10) + inject_Z fundamental * 1
           + inject_Z flow * (2 # 10))%Q
    /\ graded_by_thresholds (Result.final_investment_score result)
                            (Result.investment_grade result).
Proof.
  apply (composite_score_and_grade Samples.zigzag_history
           (Some Samples.flow_table) "005930").
  vm_compute. lia.
Defined.

(** ** The indicator columns *)

Section Indicators.

Lemma fin_where_weaken (P : Q -> Prop) (x : float64) :
  fin_where P x -> finite x.
Proof. intros (q & -> & _). exists q. split; [reflexivity | exact I]. Qed.

Lemma filter_notna_finite (xs : list float64) :
  Forall finite xs -> List.filter notna xs = xs.
Proof.
  induction 1 as [| x xs (q & -> & _) _ IH]; simpl; [reflexivity |].
  rewrite IH. reflexivity.
Qed.

Lemma length_window {A} (w i : nat) (xs : list A) :
  (i < length xs)%nat -> length (window w i xs) = Nat.min w (S i).
Proof.
  intros Hi. unfold window. rewrite length_drop, length_take. lia.
Qed.

Lemma Forall_window {A} (P : A -> Prop) (w i : nat) (xs : list A) :
  Forall P xs -> Forall P (window w i xs).
Proof. intros HP. unfold window. apply Forall_drop, Forall_take, HP. Qed.

Lemma length_rolling agg w minp xs :
  length (rolling agg w minp xs) = length xs.
Proof. unfold rolling. rewrite length_map, length_seq. reflexivity. Qed.

Lemma lookup_rolling agg w minp xs i :
  (i < length xs)%nat ->
  rolling agg w minp xs !! i =
    Some (let obs := List.filter notna (window w i xs) in
          if (length obs <? minp)%nat then NaN else agg obs).
Proof.
  intros Hi. unfold rolling. rewrite lookup_map, lookup_seq_lt by exact Hi.
  reflexivity.
Qed.

Section Means.

Variable P : Q -> Prop.
Hypothesis P_zero : P 0%Q.
Hypothesis P_plus : forall a b, P a -> P b -> P (a + b)%Q.
Hypothesis P_scale : forall a (n : nat), P a -> (0 < n)%nat ->
                                         P (a / inject_Z (Z.of_nat n))%Q.

Lemma fsum_fin_where (xs : list float64) :
  Forall (fin_where P) xs -> fin_where P (fsum xs).
Proof.
  induction 1 as [| x xs (q & -> & Hq) _ (s & IH & Hs)]; simpl.
  - exists 0%Q. split; [reflexivity | exact P_zero].
  - rewrite IH. exists (q + s)%Q. split; [reflexivity | apply P_plus; assumption].
Qed.

Lemma mean_fin_where (obs : list float64) :
  (0 < length obs)%nat -> Forall (fin_where P) obs -> fin_where P (mean obs).
Proof.
  intros Hlen Hobs. unfold mean.
  destruct (fsum_fin_where obs Hobs) as (s & -> & Hs).
  unfold of_nat, of_Z, fdiv.
  assert (Hnz : Qeq_bool (inject_Z (Z.of_nat (length obs))) 0 = false).
  { apply Qeq_bool_false. intros Heq.
    assert (Hpos : (0 < inject_Z (Z.of_nat (length obs)))%Q).
    { rewrite <- (Zlt_Qlt 0). lia. }
    lra. }
  rewrite Hnz. eexists. split; [reflexivity |].
  apply P_scale; assumption.
Qed.

Lemma rolling_mean_fin_where (w : nat) (xs : list float64) :
  (0 < w)%nat -> Forall (fin_where P) xs ->
  Forall (fin_where P) (rolling_mean w 1 xs).
Proof.
  intros Hw Hxs. apply Forall_lookup. intros i x Hx.
  assert (Hi : (i < length xs)%nat).
  { apply lookup_lt_Some in Hx.
    unfold rolling_mean in Hx. rewrite length_rolling in Hx. exact Hx. }
  unfold rolling_mean in Hx. rewrite lookup_rolling in Hx by exact Hi.
  injection Hx as <-. cbv zeta.
  assert (Hwin : Forall (fin_where P) (window w i xs))
    by (apply Forall_window, Hxs).
  rewrite filter_notna_finite
    by (eapply Forall_impl; [exact Hwin | apply fin_where_weaken]).
  assert (Hlen : length (window w i xs) = Nat.min w (S i))
    by (apply length_window, Hi).
  destruct (Nat.ltb_spec (length (window w i xs)) 1) as [Hlt | Hge]; [lia |].
  apply mean_fin_where; [lia | exact Hwin].
Qed.

End Means.


Lemma rolling_mean_finite (w : nat) (xs : list float64) :
  (0 < w)%nat -> Forall finite xs -> Forall finite (rolling_mean w 1 xs).
Proof.
  intros Hw. apply rolling_mean_fin_where; [exact I | intros; exact I | intros; exact I | exact Hw].
Qed.

Lemma rolling_mean_nonneg (w : nat) (xs : list float64) :
  (0 < w)%nat -> Forall nonneg xs -> Forall nonneg (rolling_mean w 1 xs).
Proof.
  intros Hw. apply rolling_mean_fin_where; [| | | exact Hw].
  - apply Qle_refl.
  - intros a b Ha Hb. lra.
  - intros a n Ha Hn. apply Qle_shift_div_l.
    + rewrite <- (Zlt_Qlt 0). lia.
    + lra.
Qed.

Lemma Forall_zip_with {A B C} (f : A -> B -> C)
    (P : A -> Prop) (R : B -> Prop) (S : C -> Prop) (xs : list A) (ys : list B) :
  (forall x y, P x -> R y -> S (f x y)) ->
  Forall P xs -> Forall R ys -> Forall S (zip_with f xs ys).
Proof.
  intros Hf Hxs. revert ys.
  induction Hxs as [| x xs Hx _ IH]; intros ys Hys; simpl; [constructor |].
  destruct Hys as [| y ys Hy Hys]; constructor; auto.
Qed.

Lemma shift_fin_or_nan (n : nat) (xs : list float64) :
  Forall finite xs -> Forall fin_or_nan (shift n xs).
Proof.
  intros Hxs. unfold shift. apply Forall_take, Forall_app. split.
  - apply Forall_forall. intros x Hx. apply list_elem_of_In, repeat_spec in Hx.
    left. exact Hx.
  - eapply Forall_impl; [exact Hxs |]. intros x Hx. right. exact Hx.
Qed.

Lemma diff_fin_or_nan (xs : list float64) :
  Forall finite xs -> Forall fin_or_nan (diff xs).
Proof.
  intros Hxs. unfold diff.
  apply (Forall_zip_with fsub finite fin_or_nan fin_or_nan);
    [| exact Hxs | apply shift_fin_or_nan, Hxs].
  intros x y (a & -> & _) [-> | (b & -> & _)].
  - left. reflexivity.
  - right. eexists. split; [reflexivity | exact I].
Qed.

Lemma gains_nonneg (ds : list float64) :
  Forall fin_or_nan ds ->
  Forall nonneg (where_ (fun d => fgtb d (Fin 0)) (Fin 0) ds).
Proof.
  intros Hds. unfold where_. apply Forall_fmap.
  eapply Forall_impl; [exact Hds |].
  intros d [-> | (q & -> & _)]; simpl.
  - exists 0%Q. split; [reflexivity | apply Qle_refl].
  - unfold fgtb, fltb. destruct (Qltb 0 q) eqn:E.
    + apply Qltb_true in E. exists q. split; [reflexivity | lra].
    + exists 0%Q. split; [reflexivity | apply Qle_refl].
Qed.

Lemma losses_nonneg (ds : list float64) :
  Forall fin_or_nan ds ->
  Forall nonneg (map fneg (where_ (fun d => fltb d (Fin 0)) (Fin 0) ds)).
Proof.
  intros Hds. unfold where_. apply Forall_fmap, Forall_fmap.
  eapply Forall_impl; [exact Hds |].
  intros d [-> | (q & -> & _)]; simpl.
  - exists (- 0)%Q. split; [reflexivity | lra].
  - destruct (Qltb q 0) eqn:E; simpl.
    + apply Qltb_true in E. exists (- q)%Q. split; [reflexivity | lra].
    + exists (- 0)%Q. split; [reflexivity | lra].
Qed.

Section Columns.

Variable df : list PriceBar.t.

Lemma col_close_finite : Forall finite (col_close df).
Proof.
  unfold col_close. apply Forall_fmap, Forall_forall. intros b _.
  eexists. split; [reflexivity | exact I].
Qed.

Lemma col_volume_finite : Forall finite (col_volume df).
Proof.
  unfold col_volume. apply Forall_fmap, Forall_forall. intros b _.
  eexists. split; [reflexivity | exact I].
Qed.

Lemma col_gain_nonneg : Forall nonneg (col_gain df).
Proof.
  apply rolling_mean_nonneg; [lia |].
  apply gains_nonneg, diff_fin_or_nan, col_close_finite.
Qed.

Lemma col_loss_nonneg : Forall nonneg (col_loss df).
Proof.
  apply rolling_mean_nonneg; [lia |].
  apply losses_nonneg, diff_fin_or_nan, col_close_finite.
Qed.

Lemma length_col_gain : length (col_gain df) = length df.
Proof.
  unfold col_gain, rolling_mean, where_, col_delta, diff, shift, col_close.
  rewrite length_rolling, length_map, length_zip_with, length_take.
  rewrite length_app, repeat_length, length_map. lia.
Qed.

Lemma length_col_loss : length (col_loss df) = length df.
Proof.
  unfold col_loss, rolling_mean, where_, col_delta, diff, shift, col_close.
  rewrite length_rolling, !length_map, length_zip_with, length_take.
  rewrite length_app, repeat_length, length_map. lia.
Qed.

Lemma Forall_at {A} (P : A -> Prop) (xs : list A) (i : nat) :
  Forall P xs -> (i < length xs)%nat -> exists x, xs !! i = Some x /\ P x.
Proof.
  intros HP Hi. destruct (lookup_lt_is_Some_2 xs i Hi) as [x Hx].
  exists x. split; [exact Hx |]. eapply Forall_lookup; eassumption.
Qed.

Lemma lookup_col_rsi (i : nat) (gain loss : float64) :
  col_gain df !! i = Some gain -> col_loss df !! i = Some loss ->
  col_rsi df !! i = Some (rsi_of gain loss).
Proof.
  intros Hg Hl. unfold col_rsi, fillna, col_rs, replace.
  rewrite !lookup_map, lookup_zip_with, lookup_map, Hg, Hl. reflexivity.
Qed.

Lemma rsi_of_range (g l : Q) :
  (0 <= g)%Q -> (0 <= l)%Q ->
  exists rsi, rsi_of (Fin g) (Fin l) = Fin rsi
              /\ (0 <= rsi <= 100)%Q /\ ((l == 0)%Q -> rsi = 50%Q).
Proof.
  intros Hg Hl. unfold rsi_of. cbn [feqb].
  destruct (Qeq_bool l 0) eqn:El.
  - exists 50%Q. simpl. split; [reflexivity |]. split; [lra | reflexivity].
  - assert (Hne : ~ (l == 0)%Q) by (apply Qeq_bool_false; exact El).
    assert (Hlpos : (0 < l)%Q) by lra.
    assert (Hrs : (0 <= g / l)%Q) by (apply Qle_shift_div_l; lra).
    cbn [fdiv]. rewrite El. cbn [fadd fdiv].
    assert (Hden : Qeq_bool (1 + g / l) 0 = false)
      by (apply Qeq_bool_false; lra).
    rewrite Hden. cbn [fsub fneg fadd isna].
    eexists. split; [reflexivity |]. split.
    + assert (Hq : (0 < 100 / (1 + g / l))%Q)
        by (apply Qlt_shift_div_l; lra).
      assert (Hq' : (100 / (1 + g / l) <= 100)%Q)
        by (apply Qle_shift_div_r; lra).
      lra.
    + intros Hz. contradiction.
Qed.

(** C6.  On every bar the RSI cell is a number between 0 and 100, and it is
    exactly 50 where the trailing 14-bar average loss is 0. *)
Theorem rsi_range_and_neutral (i : nat) :
  (i < length df)%nat ->
  exists rsi loss : Q,
    Row.rsi (indicator_row df i) = Some (Fin rsi)
    /\ col_loss df !! i = Some (Fin loss)
    /\ (0 <= rsi <= 100)%Q
    /\ ((loss == 0)%Q -> rsi = 50%Q).
Proof.
  intros Hi.
  destruct (Forall_at _ _ i col_gain_nonneg) as (gain & Hgain & g & -> & Hg);
    [rewrite length_col_gain; exact Hi |].
  destruct (Forall_at _ _ i col_loss_nonneg) as (loss & Hloss & l & -> & Hl);
    [rewrite length_col_loss; exact Hi |].
  destruct (rsi_of_range g l Hg Hl) as (rsi & Hrsi & Hrange & Hneutral).
  exists rsi, l. cbn [indicator_row Row.rsi].
  rewrite (lookup_col_rsi i _ _ Hgain Hloss), Hrsi. auto.
Qed.


Lemma length_col_volume_ma20 : length (col_volume_ma20 df) = length df.
Proof.
  unfold col_volume_ma20, rolling_mean, col_volume.
  rewrite length_rolling, length_map. reflexivity.
Qed.

Lemma col_volume_ma20_finite : Forall finite (col_volume_ma20 df).
Proof. apply rolling_mean_finite; [lia | apply col_volume_finite]. Qed.

(** C8.  On every bar the volume ratio is a rational number: the volume
    over its 20-bar average, and the raw volume where that average is 0. *)
Theorem volume_ratio_finite (i : nat) (bar : PriceBar.t) :
  df !! i = Some bar ->
  exists ratio average : Q,
    Row.volume_ratio (indicator_row df i) = Some (Fin ratio)
    /\ Row.volume_ma20 (indicator_row df i) = Some (Fin average)
    /\ ((average == 0)%Q -> (ratio == PriceBar.volume bar)%Q)
    /\ (~ (average == 0)%Q -> (ratio == PriceBar.volume bar / average)%Q).
Proof.
  intros Hbar.
  assert (Hi : (i < length df)%nat) by (eapply lookup_lt_Some; exact Hbar).
  destruct (Forall_at _ _ i col_volume_ma20_finite)
    as (average & Hma & m & -> & _);
    [rewrite length_col_volume_ma20; exact Hi |].
  cbn [indicator_row Row.volume_ratio Row.volume_ma20].
  unfold col_volume_ratio, replace, col_volume.
  rewrite lookup_zip_with, !lookup_map, Hbar, Hma. cbn [fmap option_fmap option_map mbind option_bind feqb].
  destruct (Qeq_bool m 0) eqn:Em.
  - apply Qeq_bool_iff in Em.
    exists (PriceBar.volume bar / 1)%Q, m. cbn [fdiv].
    change (Qeq_bool 1 0) with false. cbv iota.
    split; [reflexivity |]. split; [reflexivity |].
    split; [intros _; field | intros Hne; contradiction].
  - assert (Hne : ~ (m == 0)%Q) by (apply Qeq_bool_false; exact Em).
    exists (PriceBar.volume bar / m)%Q, m. cbn [fdiv]. rewrite Em.
    split; [reflexivity |]. split; [reflexivity |].
    split; [intros Hz; contradiction | intros _; reflexivity].
Qed.

End Columns.

End Indicators.

Lemma rsi_range_and_neutral_witness :
  exists rsi loss : Q,
    Row.rsi (indicator_row Samples.untraded_history 2) = Some (Fin rsi)
    /\ col_loss Samples.untraded_history !! 2%nat = Some (Fin loss)
    /\ (0 <= rsi <= 100)%Q
    /\ ((loss == 0)%Q -> rsi = 50%Q).
Proof.
  apply (rsi_range_and_neutral Samples.untraded_history 2).
  vm_compute. lia.
Defined.

Lemma volume_ratio_finite_witness :
  exists ratio average : Q,
    Row.volume_ratio (indicator_row Samples.untraded_history 2)
    = Some (Fin ratio)
    /\ Row.volume_ma20 (indicator_row Samples.untraded_history 2)
       = Some (Fin average)
    /\ ((average == 0)%Q -> (ratio == PriceBar.volume (Samples.bar 3 100 0))%Q)
    /\ (~ (average == 0)%Q
        -> (ratio == PriceBar.volume (Samples.bar 3 100 0) / average)%Q).
Proof.
  apply (volume_ratio_finite Samples.untraded_history 2 (Samples.bar 3 100 0)).
  vm_compute. reflexivity.
Defined.

(** ** The ranked list *)

(** The call at line 351 names no [kind], so which of two results of equal
    final score comes first is left to the routine pandas runs by default,
    which is not part of this source.  With a routine that keeps rows of
    equal key in place, as [kind='stable'] would select, the ranked list
    has every group of equal final scores in input order. *)
Lemma stable_sort_keeps_ties (prices_df : list PriceBar.t)
    (institutional_df : option (list InstRow.t)) :
  ties_in_input_order
    (collect_results prices_df institutional_df)
    (@analyze_all_stocks prices_df institutional_df stable_sort).
Proof.
  intros score. unfold analyze_all_stocks. cbn [sort_values stable_sort].
  apply isort_stable_filter.
Qed.

(** ** The buy-day ratio *)

Section BuyRatio.

Lemma length_tail {A} (n : nat) (xs : list A) :
  length (tail n xs) = Nat.min n (length xs).
Proof. unfold tail. rewrite length_drop. lia. Qed.

Lemma buy_ratio_value (series : list Q) :
  (0 < length series)%nat ->
  buy_ratio series = ratio_over (Nat.min 20 (length series)) series.
Proof.
  intros Hlen. unfold buy_ratio, ratio_over. cbv zeta.
  rewrite length_tail.
  destruct (Nat.ltb_spec 0 (Nat.min 20 (length series))) as [_ | Hz]; [| lia].
  reflexivity.
Qed.

Lemma length_arange (n : nat) : length (arange n) = n.
Proof. unfold arange. rewrite length_map, length_seq. reflexivity. Qed.

Context `{SortValues}.

Lemma length_column cell (df : FlowFrame.t) :
  length (column cell (by_date df)) = length (FlowFrame.rows df).
Proof.
  unfold column, by_date. rewrite length_map.
  symmetry. apply Permutation_length, sort_values_perm.
Qed.

(** C5, amended.  With at least 5 rows, the buy-day ratio of each class is
    the number of strictly positive entries among the trailing 20 divided by
    the number of those entries, min(20, rows): by 20 from 20 rows on, by the
    row count below. *)
Theorem buy_ratio_over_window (df : FlowFrame.t) :
  (5 <= length (FlowFrame.rows df))%nat ->
  (FlowFrame.has_institutional df = true ->
   calculate_trend_metrics df !! "inst_buy_ratio"
   = Some (ratio_over (Nat.min 20 (length (FlowFrame.rows df)))
                      (column FlowRecord.institutional (by_date df))))
  /\ (FlowFrame.has_foreign df = true ->
      calculate_trend_metrics df !! "frgn_buy_ratio"
      = Some (ratio_over (Nat.min 20 (length (FlowFrame.rows df)))
                         (column FlowRecord.foreign (by_date df)))).
Proof.
  intros Hlen. unfold calculate_trend_metrics.
  destruct (Nat.eqb_spec (length (FlowFrame.rows df)) 0) as [E0 | _]; [lia |].
  destruct (Nat.ltb_spec (length (FlowFrame.rows df)) 5) as [E5 | _]; [lia |].
  simpl orb. cbv iota zeta.
  rewrite !length_arange, !length_tail, !length_column, !Nat.eqb_refl.
  destruct (Nat.leb_spec 5 (length (FlowFrame.rows df))) as [_ | E]; [| lia].
  destruct (Nat.ltb_spec 1 (Nat.min 20 (length (FlowFrame.rows df))))
    as [_ | E]; [| lia].
  simpl andb. cbv iota.
  split; intros Hcol; rewrite Hcol.
  - destruct (FlowFrame.has_foreign df);
      rewrite !lookup_insert_ne by discriminate;
      rewrite lookup_insert_eq, buy_ratio_value, length_column;
      first [reflexivity | rewrite length_column; lia].
  - rewrite !lookup_insert_ne by discriminate.
    rewrite lookup_insert_eq, buy_ratio_value, length_column;
      first [reflexivity | rewrite length_column; lia].
Qed.

End BuyRatio.

Lemma buy_ratio_over_window_witness :
  (FlowFrame.has_institutional Samples.five_days = true ->
   @calculate_trend_metrics stable_sort Samples.five_days !! "inst_buy_ratio"
   = Some (ratio_over (Nat.min 20 (length (FlowFrame.rows Samples.five_days)))
             (column FlowRecord.institutional
                (@by_date stable_sort Samples.five_days))))
  /\ (FlowFrame.has_foreign Samples.five_days = true ->
      @calculate_trend_metrics stable_sort Samples.five_days !! "frgn_buy_ratio"
      = Some (ratio_over (Nat.min 20 (length (FlowFrame.rows Samples.five_days)))
                (column FlowRecord.foreign
                   (@by_date stable_sort Samples.five_days)))).
Proof.
  apply (@buy_ratio_over_window stable_sort Samples.five_days).
  vm_compute. lia.
Defined.

(** C5 as stated fails below 20 rows: with 5 rows, 4 of them net-buy days for
    the institutional class, the ratio is 4/5 and not 4/20. *)
Lemma buy_ratio_of_short_input :
  @calculate_trend_metrics stable_sort Samples.five_days !! "inst_buy_ratio"
  = Some (Fin (4 # 5))
  /\ ratio_over 20 (column FlowRecord.institutional (@by_date stable_sort Samples.five_days))
     = Fin (4 # 20)
  /\ ~ (4 # 5 == 4 # 20)%Q.
Proof.
  split; [vm_compute; reflexivity |]. split; [vm_compute; reflexivity |].
  intros Heq. vm_compute in Heq. discriminate Heq.
Qed.

(* ================================================================= *)
(** * Further properties *)

Import Dashboard Notifier Collection.

(** ** More on the stage classifier *)

Section StageRange.

(** X1.  The fallback label is returned exactly when the guard on the two long
    averages fires: MA50 or MA200 absent, NaN or zero. *)
Theorem insufficient_data_iff_guard (row : Row.t) :
  snd (_classify_wave_stage row) = "Insufficient Data"
  <-> ~ averages_usable row.
Proof.
  unfold averages_usable. cbv zeta.
  unfold _classify_wave_stage. cbv zeta.
  destruct (isna (get (Row.ma50 row) (Fin 0))),
           (isna (get (Row.ma200 row) (Fin 0))),
           (feqb (get (Row.ma50 row) (Fin 0)) (Fin 0)),
           (feqb (get (Row.ma200 row) (Fin 0)) (Fin 0)); simpl orb; cbv iota;
    try (split; [intros _ (? & ? & ? & ?); discriminate | reflexivity]).
  split.
  - intros Hlabel. exfalso.
    repeat match goal with
           | H : context [if ?b then _ else _] |- _ => destruct b
           end; discriminate Hlabel.
  - intros Hno. exfalso. apply Hno. repeat split.
Qed.


Lemma fleb_trans (x y z : float64) :
  fleb x y = true -> fleb y z = true -> fleb x z = true.
Proof.
  destruct x as [a | | |], y as [b | | |], z as [c | | |];
    simpl; try congruence.
  intros Hab Hbc. apply Qle_bool_iff in Hab, Hbc. apply Qle_bool_iff. lra.
Qed.

Lemma fgeb_weaken (x : float64) (lo hi : Q) :
  (lo <= hi)%Q -> fgeb x (Fin lo) = false -> fgeb x (Fin hi) = false.
Proof.
  intros Hle Hlo. unfold fgeb in *.
  destruct (fleb (Fin hi) x) eqn:E; [| reflexivity].
  rewrite (fleb_trans (Fin lo) (Fin hi) x) in Hlo; [discriminate | | exact E].
  apply Qle_bool_iff, Hle.
Qed.

(** X2.  A row whose volume ratio is below 0.8 (or NaN) is never put in one of
    the three uptrend stages that ask for volume: 90, 80 and 60. *)
Theorem thin_volume_never_uptrend (row : Row.t) :
  fgeb (get (Row.volume_ratio row) (Fin 1)) (Fin 0.8) = false ->
  fst (_classify_wave_stage row) <> 90%Z
  /\ fst (_classify_wave_stage row) <> 80%Z
  /\ fst (_classify_wave_stage row) <> 60%Z.
Proof.
  intros H08.
  assert (H13 := fgeb_weaken _ 0.8 1.3 ltac:(lra) H08).
  assert (H12 := fgeb_weaken _ 0.8 1.2 ltac:(lra) H08).
  unfold _classify_wave_stage. cbv zeta.
  rewrite H08, H13, H12, !andb_false_r. simpl andb. cbv iota.
  repeat match goal with
         | |- context [if ?b then _ else _] => destruct b
         end; simpl; repeat split; discriminate.
Qed.



(** Without alignment there is no stage 90, and without MA50 below MA200
    there is no stage 30. *)
Lemma unaligned_never_strong (row : Row.t) :
  get (Row.ma_aligned row) false = false ->
  fst (_classify_wave_stage row) <> 90%Z.
Proof.
  intros Hal. unfold _classify_wave_stage. cbv zeta.
  rewrite Hal. simpl andb. cbv iota.
  repeat match goal with
         | |- context [if ?b then _ else _] => destruct b
         end; simpl; discriminate.
Qed.

Lemma level_averages_never_decline (row : Row.t) :
  fltb (get (Row.ma50 row) (Fin 0)) (get (Row.ma200 row) (Fin 0)) = false ->
  fst (_classify_wave_stage row) <> 30%Z.
Proof.
  intros Hlt. unfold _classify_wave_stage. cbv zeta.
  rewrite Hlt, !andb_false_r. simpl andb. cbv iota.
  repeat match goal with
         | |- context [if ?b then _ else _] => destruct b
         end; simpl; discriminate.
Qed.

End StageRange.

(** ** More on the indicator columns *)

Section Windows.

Lemma window_covers_all {A} (w i : nat) (xs : list A) :
  (S i <= w)%nat -> window w i xs = firstn (S i) xs.
Proof.
  intros Hw. unfold window. replace (S i - w)%nat with 0%nat by lia.
  reflexivity.
Qed.

Lemma rolling_expanding agg (w w' minp i : nat) (xs : list float64) :
  (S i <= w)%nat -> (S i <= w')%nat ->
  rolling agg w minp xs !! i = rolling agg w' minp xs !! i.
Proof.
  intros Hw Hw'. unfold rolling. rewrite !lookup_map.
  destruct (seq 0 (length xs) !! i) as [j |] eqn:Ej; [| reflexivity].
  assert (j = i) as ->.
  { apply lookup_seq in Ej. lia. }
  simpl. rewrite !window_covers_all by assumption. reflexivity.
Qed.

Lemma fltb_irrefl (x : float64) : fltb x x = false.
Proof.
  destruct x as [q | | |]; simpl; try reflexivity.
  apply Qltb_false. apply Qle_refl.
Qed.

Lemma fltb_asym (x y : float64) : fltb x y = true -> fltb y x = false.
Proof.
  destruct x as [a | | |], y as [b | | |]; simpl; try congruence.
  intros Hab. apply Qltb_true in Hab. apply Qltb_false. lra.
Qed.

End Windows.

Section ShortHistory.

Variable df : list PriceBar.t.

Lemma young_averages_agree (i : nat) :
  (i < 50)%nat -> col_ma50 df !! i = col_ma200 df !! i.
Proof.
  intros Hi. unfold col_ma50, col_ma200, rolling_mean.
  apply rolling_expanding; lia.
Qed.

Lemma young_rows_unaligned (i : nat) :
  (i < 50)%nat -> (i < length df)%nat -> col_ma_aligned df !! i = Some false.
Proof.
  intros Hyoung Hi.
  unfold col_ma_aligned.
  rewrite !lookup_zip_with, (young_averages_agree i Hyoung).
  assert (Hlen20 : length (col_ma20 df) = length df).
  { unfold col_ma20, rolling_mean, col_close.
    rewrite length_rolling, length_map. reflexivity. }
  assert (Hlen200 : length (col_ma200 df) = length df).
  { unfold col_ma200, rolling_mean, col_close.
    rewrite length_rolling, length_map. reflexivity. }
  destruct (lookup_lt_is_Some_2 (col_ma20 df) i) as [a Ha]; [lia |].
  destruct (lookup_lt_is_Some_2 (col_ma200 df) i) as [b Hb]; [lia |].
  rewrite Ha, Hb. simpl. unfold fgtb at 2. rewrite fltb_irrefl, andb_false_r.
  reflexivity.
Qed.

(** X3.  With at most 50 bars the 50-bar and the 200-bar average are the same
    expanding mean on every bar, so the alignment flag is false throughout. *)
Theorem short_history_never_aligned (i : nat) :
  (length df <= 50)%nat -> (i < length df)%nat ->
  Row.ma50 (indicator_row df i) = Row.ma200 (indicator_row df i)
  /\ Row.ma_aligned (indicator_row df i) = Some false.
Proof.
  intros Hlen Hi.
  cbn [indicator_row Row.ma50 Row.ma200 Row.ma_aligned].
  split; [apply young_averages_agree | apply young_rows_unaligned]; lia.
Qed.

(** X4.  In each bar at most one of the two cross flags is set. *)
Theorem golden_and_death_cross_exclusive (i : nat) :
  ~ (Row.golden_cross (indicator_row df i) = Some true
     /\ Row.death_cross (indicator_row df i) = Some true).
Proof.
  cbn [indicator_row Row.golden_cross Row.death_cross].
  unfold col_golden_cross, col_death_cross.
  rewrite !lookup_zip_with.
  destruct (col_ma20 df !! i) as [a |]; [| intros [H _]; discriminate H].
  destruct (col_ma50 df !! i) as [b |]; [| intros [H _]; discriminate H].
  simpl.
  destruct (shift 1 (col_ma20 df) !! i) as [p |]; [| intros [H _]; discriminate H].
  destruct (shift 1 (col_ma50 df) !! i) as [q |]; [| intros [H _]; discriminate H].
  simpl. intros [Hg Hd].
  injection Hg as Hg. injection Hd as Hd.
  apply andb_true_iff in Hg, Hd. destruct Hg as [Hg _], Hd as [Hd _].
  unfold fgtb in Hg. apply fltb_asym in Hg. congruence.
Qed.

End ShortHistory.

Section Shift.

Lemma lookup_repeat_app {A} (x : A) (n i : nat) (l : list A) :
  (repeat x n ++ l)%list !! i = if (i <? n)%nat then Some x else l !! (i - n)%nat.
Proof.
  revert i. induction n as [| n IH]; intros i; simpl.
  - rewrite Nat.sub_0_r. reflexivity.
  - destruct i as [| i]; [reflexivity |]. simpl. rewrite IH. reflexivity.
Qed.

Lemma lookup_shift (n i : nat) (xs : list float64) :
  (i < length xs)%nat ->
  shift n xs !! i = if (i <? n)%nat then Some NaN else xs !! (i - n)%nat.
Proof.
  intros Hi. unfold shift. rewrite lookup_take.
  destruct (decide (i < length xs)%nat) as [_ | Hn]; [| lia].
  apply lookup_repeat_app.
Qed.

End Shift.

Section PriceChange.

Variable df : list PriceBar.t.

Lemma lookup_col_close (i : nat) :
  col_close df !! i = (fun b => Fin (PriceBar.close b)) <$> df !! i.
Proof. unfold col_close. apply lookup_map. Qed.

(** X5.  The 20-bar change is NaN on the first 20 bars. *)
Theorem price_change_20d_needs_21_bars (i : nat) :
  (i < length df)%nat -> (i < 20)%nat ->
  Row.price_change_20d (indicator_row df i) = Some NaN.
Proof.
  intros Hi H20.
  cbn [indicator_row Row.price_change_20d].
  unfold col_price_change_20d, pct_change.
  assert (Hlen : length (col_close df) = length df)
    by (unfold col_close; apply length_map).
  rewrite lookup_zip_with, lookup_shift by lia.
  destruct (Nat.ltb_spec i 20) as [_ | Hge]; [| lia].
  destruct (lookup_lt_is_Some_2 (col_close df) i) as [c Hc]; [lia |].
  rewrite Hc. simpl. destruct c; reflexivity.
Qed.

(** X6.  From the 21st bar on the 20-bar change is the close over the close
    20 bars back, minus 1, whenever that earlier close is not 0. *)
Theorem price_change_20d_value (i : nat) (now before : PriceBar.t) :
  df !! i = Some now -> (20 <= i)%nat -> df !! (i - 20)%nat = Some before ->
  ~ (PriceBar.close before == 0)%Q ->
  exists change : Q,
    Row.price_change_20d (indicator_row df i) = Some (Fin change)
    /\ (change == PriceBar.close now / PriceBar.close before - 1)%Q.
Proof.
  intros Hnow H20 Hbefore Hnz.
  assert (Hi : (i < length df)%nat) by (eapply lookup_lt_Some; exact Hnow).
  cbn [indicator_row Row.price_change_20d].
  unfold col_price_change_20d, pct_change.
  assert (Hlen : length (col_close df) = length df)
    by (unfold col_close; apply length_map).
  rewrite lookup_zip_with, lookup_shift by lia.
  destruct (Nat.ltb_spec i 20) as [Hlt | _]; [lia |].
  rewrite !lookup_col_close, Hnow, Hbefore. simpl.
  apply Qeq_bool_false in Hnz. rewrite Hnz.
  eexists. split; [reflexivity |]. unfold Qminus. reflexivity.
Qed.

End PriceChange.

Section Extremes.

(** The fold of [fmax] over rationals is a rational above all of them, and
    likewise for [fmin]. *)
Lemma fold_fmax_bound (rest : list Q) (x : Q) :
  exists m : Q,
    fold_left fmax (map Fin rest) (Fin x) = Fin m
    /\ (x <= m)%Q /\ Forall (fun q => (q <= m)%Q) rest.
Proof.
  revert x. induction rest as [| y rest IH]; intros x; simpl.
  - exists x. split; [reflexivity |]. split; [apply Qle_refl | constructor].
  - unfold fmax at 2. simpl fleb.
    destruct (Qle_bool x y) eqn:E.
    + apply Qle_bool_iff in E.
      destruct (IH y) as (m & Hm & Hy & Hrest).
      exists m. split; [exact Hm |]. split; [lra |].
      constructor; assumption.
    + apply Qle_bool_false in E.
      destruct (IH x) as (m & Hm & Hx & Hrest).
      exists m. split; [exact Hm |]. split; [exact Hx |].
      constructor; [lra | exact Hrest].
Qed.

Lemma fold_fmin_bound (rest : list Q) (x : Q) :
  exists m : Q,
    fold_left fmin (map Fin rest) (Fin x) = Fin m
    /\ (m <= x)%Q /\ Forall (fun q => (m <= q)%Q) rest.
Proof.
  revert x. induction rest as [| y rest IH]; intros x; simpl.
  - exists x. split; [reflexivity |]. split; [apply Qle_refl | constructor].
  - unfold fmin at 2. simpl fleb.
    destruct (Qle_bool y x) eqn:E.
    + apply Qle_bool_iff in E.
      destruct (IH y) as (m & Hm & Hy & Hrest).
      exists m. split; [exact Hm |]. split; [lra |].
      constructor; assumption.
    + apply Qle_bool_false in E.
      destruct (IH x) as (m & Hm & Hx & Hrest).
      exists m. split; [exact Hm |]. split; [exact Hx |].
      constructor; [lra | exact Hrest].
Qed.

Lemma reduce_fmax_bound (qs : list Q) :
  qs <> [] ->
  exists m : Q, reduce fmax (map Fin qs) = Fin m
                /\ Forall (fun q => (q <= m)%Q) qs.
Proof.
  destruct qs as [| x rest]; [congruence |]. intros _. simpl.
  destruct (fold_fmax_bound rest x) as (m & Hm & Hx & Hrest).
  exists m. split; [exact Hm |]. constructor; assumption.
Qed.

Lemma reduce_fmin_bound (qs : list Q) :
  qs <> [] ->
  exists m : Q, reduce fmin (map Fin qs) = Fin m
                /\ Forall (fun q => (m <= q)%Q) qs.
Proof.
  destruct qs as [| x rest]; [congruence |]. intros _. simpl.
  destruct (fold_fmin_bound rest x) as (m & Hm & Hx & Hrest).
  exists m. split; [exact Hm |]. constructor; assumption.
Qed.

Lemma filter_notna_Fin (qs : list Q) :
  List.filter notna (map Fin qs) = map Fin qs.
Proof. induction qs as [| q qs IH]; simpl; [| rewrite IH]; reflexivity. Qed.

Lemma window_map {A B} (f : A -> B) (w i : nat) (xs : list A) :
  window w i (map f xs) = map f (window w i xs).
Proof.
  unfold window. rewrite <- skipn_map, <- firstn_map. reflexivity.
Qed.

(** Row [i] is the last row of every window that ends at it. *)
Lemma window_last {A} (w i : nat) (xs : list A) (x : A) :
  (0 < w)%nat -> xs !! i = Some x -> In x (window w i xs).
Proof.
  intros Hw Hx. apply list_elem_of_In. unfold window.
  apply list_elem_of_lookup. exists (i - (S i - w))%nat.
  rewrite lookup_drop, lookup_take.
  destruct (decide (S i - w + (i - (S i - w)) < S i)%nat) as [_ | Hn]; [| lia].
  replace (S i - w + (i - (S i - w)))%nat with i by lia. exact Hx.
Qed.

(** A rolling extreme over rationals: NaN until [minp] rows exist, then a
    rational bounding the window. *)
Lemma rolling_young agg (w minp i : nat) (qs : list Q) :
  (i < length qs)%nat -> (S i < minp)%nat ->
  rolling agg w minp (map Fin qs) !! i = Some NaN.
Proof.
  intros Hi Hyoung.
  rewrite lookup_rolling by (rewrite length_map; exact Hi). cbv zeta.
  rewrite window_map, filter_notna_Fin, length_map, length_window by exact Hi.
  destruct (Nat.ltb_spec (Nat.min w (S i)) minp) as [_ | Hge]; [reflexivity | lia].
Qed.

Lemma rolling_max_bound (w minp i : nat) (qs : list Q) (x : Q) :
  (0 < minp <= w)%nat -> (minp <= S i)%nat -> qs !! i = Some x ->
  exists m : Q, rolling_max w minp (map Fin qs) !! i = Some (Fin m)
                /\ (x <= m)%Q.
Proof.
  intros Hw Hold Hx.
  assert (Hi : (i < length qs)%nat) by (eapply lookup_lt_Some; exact Hx).
  unfold rolling_max.
  rewrite lookup_rolling by (rewrite length_map; exact Hi). cbv zeta.
  rewrite window_map, filter_notna_Fin, length_map, length_window by exact Hi.
  destruct (Nat.ltb_spec (Nat.min w (S i)) minp) as [Hlt | _]; [lia |].
  assert (Hin : In x (window w i qs)) by (apply window_last; [lia | exact Hx]).
  destruct (reduce_fmax_bound (window w i qs)) as (m & Hm & Hall).
  { intros E. rewrite E in Hin. destruct Hin. }
  exists m. split; [rewrite Hm; reflexivity |].
  rewrite List.Forall_forall in Hall. apply Hall, Hin.
Qed.

Lemma rolling_min_bound (w minp i : nat) (qs : list Q) (x : Q) :
  (0 < minp <= w)%nat -> (minp <= S i)%nat -> qs !! i = Some x ->
  exists m : Q, rolling_min w minp (map Fin qs) !! i = Some (Fin m)
                /\ (m <= x)%Q.
Proof.
  intros Hw Hold Hx.
  assert (Hi : (i < length qs)%nat) by (eapply lookup_lt_Some; exact Hx).
  unfold rolling_min.
  rewrite lookup_rolling by (rewrite length_map; exact Hi). cbv zeta.
  rewrite window_map, filter_notna_Fin, length_map, length_window by exact Hi.
  destruct (Nat.ltb_spec (Nat.min w (S i)) minp) as [Hlt | _]; [lia |].
  assert (Hin : In x (window w i qs)) by (apply window_last; [lia | exact Hx]).
  destruct (reduce_fmin_bound (window w i qs)) as (m & Hm & Hall).
  { intros E. rewrite E in Hin. destruct Hin. }
  exists m. split; [rewrite Hm; reflexivity |].
  rewrite List.Forall_forall in Hall. apply Hall, Hin.
Qed.

End Extremes.

Section Position.

Variable df : list PriceBar.t.

Lemma col_high_Fin : col_high df = map Fin (map PriceBar.high df).
Proof. unfold col_high. rewrite map_map. reflexivity. Qed.

Lemma col_low_Fin : col_low df = map Fin (map PriceBar.low df).
Proof. unfold col_low. rewrite map_map. reflexivity. Qed.

Lemma lookup_col_position (i : nat) (c h l : float64) :
  col_close df !! i = Some c -> col_high_52w df !! i = Some h ->
  col_low_52w df !! i = Some l ->
  col_position_52w df !! i
  = Some (fmul (fdiv (fsub c l)
                     (if feqb (fsub h l) (Fin 0) then Fin 1 else fsub h l))
               (Fin 100)).
Proof.
  intros Hc Hh Hl. unfold col_position_52w, col_price_range, replace.
  rewrite lookup_map, !lookup_zip_with, lookup_map, lookup_zip_with.
  rewrite Hc, Hh, Hl. reflexivity.
Qed.

(** X7.  Before the 20th bar the 52-week high, low and position are NaN. *)
Theorem position_52w_needs_20_bars (i : nat) :
  (i < length df)%nat -> (i < 19)%nat ->
  Row.high_52w (indicator_row df i) = Some NaN
  /\ Row.low_52w (indicator_row df i) = Some NaN
  /\ Row.position_52w (indicator_row df i) = Some NaN.
Proof.
  intros Hi Hyoung.
  cbn [indicator_row Row.high_52w Row.low_52w Row.position_52w].
  assert (Hh : col_high_52w df !! i = Some NaN).
  { unfold col_high_52w, rolling_max. rewrite col_high_Fin.
    apply rolling_young; [rewrite length_map; exact Hi | lia]. }
  assert (Hl : col_low_52w df !! i = Some NaN).
  { unfold col_low_52w, rolling_min. rewrite col_low_Fin.
    apply rolling_young; [rewrite length_map; exact Hi | lia]. }
  split; [exact Hh |]. split; [exact Hl |].
  destruct (lookup_lt_is_Some_2 (col_close df) i) as [c Hc].
  { unfold col_close. rewrite length_map. exact Hi. }
  rewrite (lookup_col_position i c NaN NaN Hc Hh Hl).
  destruct c; reflexivity.
Qed.

(** X8.  From the 20th bar on, a bar whose close lies between its low and its
    high has a position between 0 and 100. *)
Theorem position_52w_percentile (i : nat) (bar : PriceBar.t) :
  df !! i = Some bar -> (19 <= i)%nat ->
  (PriceBar.low bar <= PriceBar.close bar)%Q ->
  (PriceBar.close bar <= PriceBar.high bar)%Q ->
  exists position : Q,
    Row.position_52w (indicator_row df i) = Some (Fin position)
    /\ (0 <= position <= 100)%Q.
Proof.
  intros Hbar Hold Hlow Hhigh.
  cbn [indicator_row Row.position_52w].
  destruct (rolling_max_bound 252 20 i (map PriceBar.high df) (PriceBar.high bar))
    as (h & Hh & Hhb); [lia | lia | rewrite lookup_map, Hbar; reflexivity |].
  destruct (rolling_min_bound 252 20 i (map PriceBar.low df) (PriceBar.low bar))
    as (l & Hl & Hlb); [lia | lia | rewrite lookup_map, Hbar; reflexivity |].
  rewrite <- col_high_Fin in Hh. rewrite <- col_low_Fin in Hl.
  rewrite (lookup_col_position i (Fin (PriceBar.close bar)) (Fin h) (Fin l));
    [| unfold col_close; rewrite lookup_map, Hbar; reflexivity
     | exact Hh | exact Hl].
  set (c := PriceBar.close bar) in *.
  cbn [fsub fneg fadd feqb].
  destruct (Qeq_bool (h + - l) 0) eqn:E.
  - apply Qeq_bool_iff in E. cbn [fdiv].
    change (Qeq_bool 1 0) with false. cbv iota. cbn [fmul].
    eexists. split; [reflexivity |].
    assert (Hc : (c + - l == 0)%Q) by lra.
    rewrite Hc. split; vm_compute; discriminate.
  - assert (Hne : ~ (h + - l == 0)%Q) by (apply Qeq_bool_false; exact E).
    cbn [fdiv]. rewrite E. cbn [fmul].
    eexists. split; [reflexivity |].
    assert (Hpos : (0 < h + - l)%Q) by lra.
    assert (Hlo : (0 <= (c + - l) / (h + - l))%Q)
      by (apply Qle_shift_div_l; lra).
    assert (Hhi : ((c + - l) / (h + - l) <= 1)%Q)
      by (apply Qle_shift_div_r; lra).
    split; lra.
Qed.

End Position.

Section ScoreBounds.

Lemma wave_score_range (row : Row.t) :
  (30 <= fst (_classify_wave_stage row) <= 90)%Z.
Proof.
  unfold _classify_wave_stage. cbv zeta.
  repeat match goal with
         | |- context [if ?b then _ else _] => destruct b
         end; simpl; lia.
Qed.

Lemma proxy_score_range (row : Row.t) :
  (10 <= _calculate_fundamental_score row <= 20)%Z.
Proof.
  unfold _calculate_fundamental_score. cbv zeta.
  repeat match goal with
         | |- context [if ?b then _ else _] => destruct b
         end; lia.
Qed.

Variable prices_df : list PriceBar.t.
Variable institutional_df : option (list InstRow.t).

(** The shape of a full analysis. *)
Lemma analyze_stock_full (ticker : string) :
  (20 <= length (rows_of prices_df ticker))%nat ->
  let latest := indicator_row (rows_of prices_df ticker)
                  (length (rows_of prices_df ticker) - 1) in
  let final := final_score (fst (_classify_wave_stage latest))
                 (_calculate_fundamental_score latest)
                 (fst (supply_demand institutional_df ticker)) in
  analyze_stock prices_df institutional_df ticker =
    inl {| Result.ticker := ticker;
           Result.wave_score := fst (_classify_wave_stage latest);
           Result.wave_stage := snd (_classify_wave_stage latest);
           Result.final_investment_score := round final 2;
           Result.investment_grade := investment_grade final;
           Result.supply_demand_score :=
             Some (fst (supply_demand institutional_df ticker));
           Result.supply_demand_stage :=
             Some (snd (supply_demand institutional_df ticker));
           Result.fundamental_score :=
             Some (_calculate_fundamental_score latest) |}.
Proof.
  intros Hlen. cbv zeta. unfold analyze_stock. cbv zeta.
  destruct (Nat.eqb_spec (length (rows_of prices_df ticker)) 0) as [E0 | _];
    [lia |].
  destruct (Nat.ltb_spec (length (rows_of prices_df ticker)) 20) as [E20 | _];
    [lia |].
  simpl orb. cbv iota. rewrite latest_row by lia.
  destruct (_classify_wave_stage _) as [wave stage].
  destruct (supply_demand institutional_df ticker) as [flow flow_stage].
  reflexivity.
Qed.

Lemma final_score_interval (wave fundamental flow : Z) :
  (30 <= wave <= 90)%Z -> (10 <= fundamental <= 20)%Z ->
  (28 + inject_Z flow * (2 # 10) <= final_score wave fundamental flow)%Q
  /\ (final_score wave fundamental flow <= 74 + inject_Z flow * (2 # 10))%Q.
Proof.
  intros [Hw1 Hw2] [Hf1 Hf2]. unfold final_score.
  rewrite Zle_Qle in Hw1, Hw2, Hf1, Hf2.
  change (inject_Z 30) with 30%Q in Hw1. change (inject_Z 90) with 90%Q in Hw2.
  change (inject_Z 10) with 10%Q in Hf1. change (inject_Z 20) with 20%Q in Hf2.
  split; lra.
Qed.

(** X9.  With at least 20 bars the final score lies between 28 and 74 plus a
    fifth of the flow score. *)
Theorem final_score_bounds (ticker : string) :
  (20 <= length (rows_of prices_df ticker))%nat ->
  exists result : Result.t,
    analyze_stock prices_df institutional_df ticker = inl result
    /\ (28 + inject_Z (fst (supply_demand institutional_df ticker)) * (2 # 10)
        <= Result.final_investment_score result)%Q
    /\ (Result.final_investment_score result
        <= 74 + inject_Z (fst (supply_demand institutional_df ticker)) * (2 # 10))%Q.
Proof.
  intros Hlen. rewrite analyze_stock_full by exact Hlen. cbv zeta.
  eexists. split; [reflexivity |]. cbn [Result.final_investment_score].
  set (latest := indicator_row _ _).
  rewrite round_final_score.
  apply final_score_interval; [apply wave_score_range | apply proxy_score_range].
Qed.


(** X10.  At most 50 bars: the analysis never reports stage 90 or stage 30. *)
Theorem young_listing_never_strong_or_declining (ticker : string) :
  (20 <= length (rows_of prices_df ticker) <= 50)%nat ->
  exists result : Result.t,
    analyze_stock prices_df institutional_df ticker = inl result
    /\ Result.wave_score result <> 90%Z
    /\ Result.wave_score result <> 30%Z.
Proof.
  intros [Hlo Hhi]. rewrite analyze_stock_full by exact Hlo. cbv zeta.
  eexists. split; [reflexivity |]. cbn [Result.wave_score].
  split.
  - apply unaligned_never_strong. cbn [indicator_row Row.ma_aligned].
    rewrite young_rows_unaligned by lia. reflexivity.
  - apply level_averages_never_decline. cbn [indicator_row Row.ma50 Row.ma200].
    rewrite young_averages_agree by lia. apply fltb_irrefl.
Qed.

End ScoreBounds.

(** X11.  Without a flow table the final score is at most 74: no instrument is
    graded S or A. *)
Theorem no_flow_data_caps_grade (prices_df : list PriceBar.t) (ticker : string) :
  exists result : Result.t,
    analyze_stock prices_df None ticker = inl result
    /\ (Result.final_investment_score result <= 74)%Q
    /\ Result.investment_grade result <> "S급 (즉시 매수)"
    /\ Result.investment_grade result <> "A급 (적극 매수)".
Proof.
  destruct (Nat.lt_ge_cases (length (rows_of prices_df ticker)) 20)
    as [Hshort | Hlong].
  - exists (insufficient_data ticker). split.
    + unfold analyze_stock. cbv zeta.
      apply Nat.ltb_lt in Hshort. rewrite Hshort, orb_true_r. reflexivity.
    + split; [vm_compute; discriminate |]. split; discriminate.
  - rewrite analyze_stock_full by exact Hlong. cbv zeta.
    eexists. split; [reflexivity |].
    cbn [Result.investment_grade Result.final_investment_score supply_demand fst].
    set (latest := indicator_row _ _).
    destruct (final_score_interval (fst (_classify_wave_stage latest))
                (_calculate_fundamental_score latest) 0
                (wave_score_range latest) (proxy_score_range latest))
      as [_ Hmax].
    change (inject_Z 0) with 0%Q in Hmax.
    split; [rewrite round_final_score; lra |].
    set (final := final_score _ _ _) in *.
    unfold investment_grade.
    assert (H85 : Qle_bool 85 final = false) by (apply Qle_bool_false; lra).
    assert (H75 : Qle_bool 75 final = false) by (apply Qle_bool_false; lra).
    rewrite H85, H75.
    destruct (Qle_bool 65 final), (Qle_bool 55 final), (Qle_bool 45 final);
      split; discriminate.
Qed.

Section Unique.

Lemma unique_In (xs : list string) (x : string) :
  In x (unique xs) <-> In x xs.
Proof.
  induction xs as [| y xs IH]; simpl; [reflexivity |].
  rewrite filter_In, IH, negb_true_iff, String.eqb_neq.
  destruct (String.eqb_spec y x) as [-> | Hne]; [tauto |].
  split; [tauto |]. intros [E | Hin]; [contradiction | right; auto].
Qed.

Lemma unique_NoDup (xs : list string) : List.NoDup (unique xs).
Proof.
  induction xs as [| y xs IH]; simpl; [constructor |].
  apply List.NoDup_cons.
  - rewrite filter_In, negb_true_iff, String.eqb_neq. intros [_ Hne].
    congruence.
  - apply List.NoDup_filter, IH.
Qed.

End Unique.

Section Batch.

Variable prices_df : list PriceBar.t.
Variable institutional_df : option (list InstRow.t).

Lemma analyze_stock_returns (ticker : string) :
  exists result : Result.t,
    analyze_stock prices_df institutional_df ticker = inl result
    /\ Result.ticker result = ticker
    /\ Result.wave_stage result <> "Error".
Proof.
  destruct (Nat.lt_ge_cases (length (rows_of prices_df ticker)) 20)
    as [Hshort | Hlong].
  - exists (insufficient_data ticker). split.
    + unfold analyze_stock. cbv zeta.
      apply Nat.ltb_lt in Hshort. rewrite Hshort, orb_true_r. reflexivity.
    + split; [reflexivity | discriminate].
  - rewrite analyze_stock_full by exact Hlong. cbv zeta.
    eexists. split; [reflexivity |]. split; [reflexivity |].
    cbn [Result.wave_stage].
    unfold _classify_wave_stage. cbv zeta.
    repeat match goal with
           | |- context [if ?b then _ else _] => destruct b
           end; discriminate.
Qed.

Lemma collect_results_tickers :
  map Result.ticker (collect_results prices_df institutional_df)
  = unique (map PriceBar.ticker prices_df).
Proof.
  unfold collect_results. rewrite map_map.
  rewrite <- (map_id (unique _)) at 2. apply map_ext. intros ticker.
  destruct (analyze_stock_returns ticker) as (result & -> & Ht & _).
  exact Ht.
Qed.

Context `{SortValues}.

(** X13.  The ranked list has exactly one result per ticker of the price table. *)
Theorem one_result_per_ticker :
  List.NoDup (map Result.ticker (analyze_all_stocks prices_df institutional_df))
  /\ (forall ticker : string,
        In ticker (map Result.ticker
                     (analyze_all_stocks prices_df institutional_df))
        <-> In ticker (map PriceBar.ticker prices_df)).
Proof.
  assert (Hperm : Permutation
            (unique (map PriceBar.ticker prices_df))
            (map Result.ticker (analyze_all_stocks prices_df institutional_df))).
  { rewrite <- collect_results_tickers. apply Permutation_map.
    unfold analyze_all_stocks. apply sort_values_perm. }
  split.
  - eapply Permutation.Permutation_NoDup; [exact Hperm | apply unique_NoDup].
  - intros ticker. rewrite <- (unique_In (map PriceBar.ticker prices_df)).
    split; intros Hin.
    + eapply Permutation_in; [symmetry; exact Hperm | exact Hin].
    + eapply Permutation_in; [exact Hperm | exact Hin].
Qed.

End Batch.

(** ** More on the flow metrics *)

Section MetricsShape.

Context `{SortValues}.

(** The metrics of one class, as the block of [calculate_trend_metrics]
    for that class adds them. *)
Lemma trend_metrics_unfold (df : FlowFrame.t) :
  (5 <= length (FlowFrame.rows df))%nat ->
  calculate_trend_metrics df =
    let inst := column FlowRecord.institutional (by_date df) in
    let frgn := column FlowRecord.foreign (by_date df) in
    let with_inst : gmap string float64 :=
      if FlowFrame.has_institutional df then
        <["inst_trend_slope" :=
            Fin (polyfit_slope (arange (length (tail 20 inst))) (tail 20 inst))]>
          (<["inst_buy_ratio" := buy_ratio inst]>
             (<["inst_consecutive_buy" := of_Z (consecutive_buy inst)]>
                (<["inst_20d_sum" := Fin (Qsum (tail 20 inst))]>
                   (<["inst_10d_sum" := Fin (Qsum (tail 10 inst))]>
                      (<["inst_5d_sum" := Fin (Qsum (tail 5 inst))]> ∅)))))
      else ∅ in
    if FlowFrame.has_foreign df then
      <["frgn_trend_slope" :=
          Fin (polyfit_slope (arange (length (tail 20 frgn))) (tail 20 frgn))]>
        (<["frgn_buy_ratio" := buy_ratio frgn]>
           (<["frgn_consecutive_buy" := of_Z (consecutive_buy frgn)]>
              (<["frgn_20d_sum" := Fin (Qsum (tail 20 frgn))]>
                 (<["frgn_10d_sum" := Fin (Qsum (tail 10 frgn))]>
                    (<["frgn_5d_sum" := Fin (Qsum (tail 5 frgn))]> with_inst)))))
    else with_inst.
Proof.
  intros Hlen. unfold calculate_trend_metrics.
  destruct (Nat.eqb_spec (length (FlowFrame.rows df)) 0) as [E0 | _]; [lia |].
  destruct (Nat.ltb_spec (length (FlowFrame.rows df)) 5) as [E5 | _]; [lia |].
  simpl orb. cbv iota zeta.
  rewrite !length_arange, !length_tail, !length_column, !Nat.eqb_refl.
  destruct (Nat.leb_spec 5 (length (FlowFrame.rows df))) as [_ | E]; [| lia].
  destruct (Nat.ltb_spec 1 (Nat.min 20 (length (FlowFrame.rows df))))
    as [_ | E]; [| lia].
  reflexivity.
Qed.

(** The metrics are empty exactly when there are fewer than 5 rows or
    neither flow column. *)
Lemma trend_metrics_empty_iff (df : FlowFrame.t) :
  calculate_trend_metrics df = ∅
  <-> (length (FlowFrame.rows df) < 5)%nat
      \/ (FlowFrame.has_institutional df = false
          /\ FlowFrame.has_foreign df = false).
Proof.
  destruct (Nat.lt_ge_cases (length (FlowFrame.rows df)) 5) as [Hshort | Hlong].
  - split; [intros _; left; exact Hshort |]. intros _.
    unfold calculate_trend_metrics.
    apply Nat.ltb_lt in Hshort. rewrite Hshort, orb_true_r. reflexivity.
  - rewrite trend_metrics_unfold by exact Hlong. cbv zeta.
    destruct (FlowFrame.has_institutional df), (FlowFrame.has_foreign df);
      split;
      try (intros Hempty; exfalso; revert Hempty; apply insert_non_empty);
      try (intros [Hlt | [Hi Hf]]; [lia | discriminate]);
      try (intros _; right; split; reflexivity);
      try reflexivity.
Qed.

End MetricsShape.

Section Series.

Lemma leading_buys_bounds (vals : list Q) :
  (0 <= leading_buys vals <= Z.of_nat (length vals))%Z.
Proof.
  induction vals as [| v vals IH]; simpl leading_buys; simpl length; [lia |].
  destruct (Qltb 0 v); lia.
Qed.

Lemma consecutive_buy_bounds (series : list Q) :
  (0 <= consecutive_buy series <= 10)%Z.
Proof.
  unfold consecutive_buy.
  pose proof (leading_buys_bounds (rev (tail 10 series))) as Hb.
  rewrite length_rev, length_tail in Hb. lia.
Qed.

Lemma buy_ratio_bounds (series : list Q) :
  exists ratio : Q, buy_ratio series = Fin ratio /\ (0 <= ratio <= 1)%Q.
Proof.
  unfold buy_ratio. cbv zeta.
  destruct (Nat.ltb_spec 0 (length (tail 20 series))) as [Hpos | _].
  - eexists. split; [reflexivity |].
    assert (Hcount : (count_buys (tail 20 series) <= length (tail 20 series))%nat)
      by apply filter_length_le.
    assert (Hden : (0 < inject_Z (Z.of_nat (length (tail 20 series))))%Q)
      by (rewrite <- (Zlt_Qlt 0); lia).
    assert (Hnum : (0 <= inject_Z (Z.of_nat (count_buys (tail 20 series))))%Q)
      by (rewrite <- (Zle_Qle 0); lia).
    assert (Hle : (inject_Z (Z.of_nat (count_buys (tail 20 series)))
                   <= inject_Z (Z.of_nat (length (tail 20 series))))%Q)
      by (rewrite <- Zle_Qle; lia).
    split.
    + apply Qle_shift_div_l; lra.
    + apply Qle_shift_div_r; lra.
  - exists 0%Q. split; [reflexivity | lra].
Qed.

(** Series of net-buy days only, and of net-sell days only. *)
Lemma Qsum_positive (vals : list Q) :
  vals <> [] -> Forall (fun v => (0 < v)%Q) vals -> (0 < Qsum vals)%Q.
Proof.
  intros Hne Hall. induction Hall as [| v vals Hv Hall IH]; [congruence |].
  simpl. destruct vals as [| w vals]; [simpl; lra |].
  assert (0 < Qsum (w :: vals))%Q by (apply IH; congruence). lra.
Qed.

Lemma Qsum_negative (vals : list Q) :
  vals <> [] -> Forall (fun v => (v < 0)%Q) vals -> (Qsum vals < 0)%Q.
Proof.
  intros Hne Hall. induction Hall as [| v vals Hv Hall IH]; [congruence |].
  simpl. destruct vals as [| w vals]; [simpl; lra |].
  assert (Qsum (w :: vals) < 0)%Q by (apply IH; congruence). lra.
Qed.

Lemma leading_buys_all (vals : list Q) :
  Forall (fun v => (0 < v)%Q) vals ->
  leading_buys vals = Z.of_nat (length vals).
Proof.
  induction 1 as [| v vals Hv _ IH]; [reflexivity |].
  simpl leading_buys. apply Qltb_true in Hv. rewrite Hv, IH.
  simpl length. lia.
Qed.

Lemma leading_buys_none (vals : list Q) :
  Forall (fun v => (v < 0)%Q) vals -> leading_buys vals = 0%Z.
Proof.
  destruct 1 as [| v vals Hv _]; [reflexivity |].
  simpl. assert (E : Qltb 0 v = false) by (apply Qltb_false; lra).
  rewrite E. reflexivity.
Qed.

Lemma count_buys_all (vals : list Q) :
  Forall (fun v => (0 < v)%Q) vals -> count_buys vals = length vals.
Proof.
  unfold count_buys. induction 1 as [| v vals Hv _ IH]; [reflexivity |].
  simpl. apply Qltb_true in Hv. rewrite Hv. simpl. rewrite IH. reflexivity.
Qed.

Lemma count_buys_none (vals : list Q) :
  Forall (fun v => (v < 0)%Q) vals -> count_buys vals = 0%nat.
Proof.
  unfold count_buys. induction 1 as [| v vals Hv _ IH]; [reflexivity |].
  simpl. assert (E : Qltb 0 v = false) by (apply Qltb_false; lra).
  rewrite E. exact IH.
Qed.

Lemma Forall_tail {A} (P : A -> Prop) (n : nat) (xs : list A) :
  Forall P xs -> Forall P (tail n xs).
Proof. intros HP. unfold tail. apply Forall_drop, HP. Qed.

Lemma tail_nonempty {A} (n : nat) (xs : list A) :
  (0 < n)%nat -> (0 < length xs)%nat -> tail n xs <> [].
Proof.
  intros Hn Hlen E. apply (f_equal length) in E.
  rewrite length_tail in E. simpl in E. lia.
Qed.

End Series.

Section ScoredMetrics.

Context `{SortValues}.

Lemma nonempty_score_range (metrics : gmap string float64) :
  metrics <> ∅ ->
  (30 <= fst (calculate_supply_demand_score metrics) <= 100)%Z.
Proof.
  intros Hne. rewrite score_nonempty by exact Hne. cbv zeta. unfold fst.
  repeat match goal with
         | |- context [if ?b then _ else _] => generalize b; intros []
         end; lia.
Qed.

(** X15.  Scoring the metrics of a frame: 0 and "Unknown" exactly for a frame with
    fewer than 5 rows or without flow columns, otherwise 30 to 100. *)
Theorem flow_score_of_frame (df : FlowFrame.t) :
  (((length (FlowFrame.rows df) < 5)%nat
    \/ (FlowFrame.has_institutional df = false
        /\ FlowFrame.has_foreign df = false))
   /\ calculate_supply_demand_score (calculate_trend_metrics df)
      = (0%Z, "Unknown"))
  \/ ((5 <= length (FlowFrame.rows df))%nat
      /\ (FlowFrame.has_institutional df = true
          \/ FlowFrame.has_foreign df = true)
      /\ (30 <= fst (calculate_supply_demand_score
                       (calculate_trend_metrics df)) <= 100)%Z).
Proof.
  destruct (decide (calculate_trend_metrics df = ∅)) as [Hempty | Hne].
  - left. split; [apply trend_metrics_empty_iff, Hempty |].
    rewrite Hempty. reflexivity.
  - right.
    assert (Hnot := Hne). rewrite trend_metrics_empty_iff in Hnot.
    split; [lia |]. split.
    + destruct (FlowFrame.has_institutional df), (FlowFrame.has_foreign df);
        auto. exfalso. apply Hnot. right. split; reflexivity.
    + apply nonempty_score_range, Hne.
Qed.

Lemma both_columns_metrics (df : FlowFrame.t) :
  (5 <= length (FlowFrame.rows df))%nat ->
  FlowFrame.has_institutional df = true ->
  FlowFrame.has_foreign df = true ->
  let metrics := calculate_trend_metrics df in
  let inst := column FlowRecord.institutional (by_date df) in
  let frgn := column FlowRecord.foreign (by_date df) in
  metrics <> ∅
  /\ mget metrics "inst_20d_sum" = Fin (Qsum (tail 20 inst))
  /\ mget metrics "inst_consecutive_buy" = of_Z (consecutive_buy inst)
  /\ mget metrics "inst_buy_ratio" = buy_ratio inst
  /\ mget metrics "frgn_20d_sum" = Fin (Qsum (tail 20 frgn))
  /\ mget metrics "frgn_consecutive_buy" = of_Z (consecutive_buy frgn)
  /\ mget metrics "frgn_buy_ratio" = buy_ratio frgn.
Proof.
  intros Hlen Hi Hf. cbv zeta.
  rewrite trend_metrics_unfold by exact Hlen. cbv zeta. rewrite Hi, Hf.
  split; [apply insert_non_empty |].
  unfold mget.
  repeat split;
    rewrite ?lookup_insert_ne by discriminate;
    rewrite lookup_insert_eq; reflexivity.
Qed.

Lemma Forall_by_date (P : FlowRecord.t -> Prop) (df : FlowFrame.t) :
  Forall P (FlowFrame.rows df) -> Forall P (by_date df).
Proof.
  intros HP. eapply Permutation_Forall; [| exact HP].
  unfold by_date. apply sort_values_perm.
Qed.

Lemma Forall_column (P : Q -> Prop) cell (rows : list FlowRecord.t) :
  Forall (fun r => P (default 0%Q (cell r))) rows ->
  Forall P (column cell rows).
Proof. intros HP. unfold column. apply Forall_fmap. exact HP. Qed.

Lemma buyers_only (series : list Q) :
  (5 <= length series)%nat -> Forall (fun v => (0 < v)%Q) series ->
  fgtb (Fin (Qsum (tail 20 series))) (Fin 0) = true
  /\ fltb (Fin (Qsum (tail 20 series))) (Fin 0) = false
  /\ fgeb (of_Z (consecutive_buy series)) (Fin 3) = true
  /\ fgeb (buy_ratio series) (Fin 0.6) = true.
Proof.
  intros Hlen Hall.
  assert (Hsum : (0 < Qsum (tail 20 series))%Q).
  { apply Qsum_positive; [apply tail_nonempty; lia | apply Forall_tail, Hall]. }
  split; [apply Qltb_true; exact Hsum |].
  split; [apply Qltb_false; lra |].
  split.
  - unfold consecutive_buy.
    rewrite leading_buys_all by (apply Forall_rev, Forall_tail, Hall).
    rewrite length_rev, length_tail. unfold of_Z, fgeb, fleb.
    apply Qle_bool_iff. change 3%Q with (inject_Z 3).
    rewrite <- Zle_Qle. lia.
  - unfold buy_ratio. cbv zeta.
    rewrite count_buys_all by (apply Forall_tail, Hall).
    rewrite length_tail.
    destruct (Nat.ltb_spec 0 (Nat.min 20 (length series))) as [Hpos | Hz];
      [| lia].
    unfold fgeb, fleb. apply Qle_bool_iff.
    assert (Hden : (0 < inject_Z (Z.of_nat (Nat.min 20 (length series))))%Q)
      by (rewrite <- (Zlt_Qlt 0); lia).
    apply Qle_shift_div_l; [exact Hden | lra].
Qed.

Lemma sellers_only (series : list Q) :
  (5 <= length series)%nat -> Forall (fun v => (v < 0)%Q) series ->
  fgtb (Fin (Qsum (tail 20 series))) (Fin 0) = false
  /\ fltb (Fin (Qsum (tail 20 series))) (Fin 0) = true
  /\ fgeb (of_Z (consecutive_buy series)) (Fin 3) = false
  /\ fgeb (buy_ratio series) (Fin 0.6) = false.
Proof.
  intros Hlen Hall.
  assert (Hsum : (Qsum (tail 20 series) < 0)%Q).
  { apply Qsum_negative; [apply tail_nonempty; lia | apply Forall_tail, Hall]. }
  split; [apply Qltb_false; lra |].
  split; [apply Qltb_true; exact Hsum |].
  split.
  - unfold consecutive_buy.
    rewrite leading_buys_none by (apply Forall_rev, Forall_tail, Hall).
    reflexivity.
  - unfold buy_ratio. cbv zeta.
    rewrite count_buys_none by (apply Forall_tail, Hall).
    rewrite length_tail.
    destruct (Nat.ltb_spec 0 (Nat.min 20 (length series))) as [Hpos | Hz];
      [| lia].
    unfold fgeb, fleb. apply Qle_bool_false.
    assert (E : (inject_Z (Z.of_nat 0)
                 / inject_Z (Z.of_nat (Nat.min 20 (length series))) == 0)%Q).
    { unfold Qdiv. change (inject_Z (Z.of_nat 0)) with 0%Q. ring. }
    rewrite E. reflexivity.
Qed.

(** X17.  Five or more rows, every day a net-buy day for both classes: the score
    is 100, "Strong Accumulation", whatever the trend slopes are. *)
Theorem all_buy_days_score_100 (df : FlowFrame.t) :
  (5 <= length (FlowFrame.rows df))%nat ->
  FlowFrame.has_institutional df = true ->
  FlowFrame.has_foreign df = true ->
  Forall (fun r => (0 < default 0 (FlowRecord.institutional r))%Q
                   /\ (0 < default 0 (FlowRecord.foreign r))%Q)
         (FlowFrame.rows df) ->
  calculate_supply_demand_score (calculate_trend_metrics df)
  = (100%Z, "Strong Accumulation").
Proof.
  intros Hlen Hi Hf Hall.
  destruct (both_columns_metrics df Hlen Hi Hf)
    as (Hne & Hs1 & Hc1 & Hr1 & Hs2 & Hc2 & Hr2).
  rewrite score_nonempty by exact Hne. cbv zeta.
  rewrite Hs1, Hc1, Hr1, Hs2, Hc2, Hr2.
  destruct (buyers_only (column FlowRecord.institutional (by_date df)))
    as (-> & -> & -> & ->).
  { rewrite length_column. exact Hlen. }
  { apply Forall_column, Forall_by_date.
    eapply Forall_impl; [exact Hall |]. intros r [Hr _]. exact Hr. }
  destruct (buyers_only (column FlowRecord.foreign (by_date df)))
    as (-> & -> & -> & ->).
  { rewrite length_column. exact Hlen. }
  { apply Forall_column, Forall_by_date.
    eapply Forall_impl; [exact Hall |]. intros r [_ Hr]. exact Hr. }
  destruct (fgtb (mget _ "inst_trend_slope") _),
           (fgtb (mget _ "frgn_trend_slope") _); reflexivity.
Qed.

(** X18.  Every day a net-sell day for both classes: the score is 30, 35 or 40 (a
    rising slope still earns its 5 points), never above "Distribution". *)
Theorem all_sell_days_score_low (df : FlowFrame.t) :
  (5 <= length (FlowFrame.rows df))%nat ->
  FlowFrame.has_institutional df = true ->
  FlowFrame.has_foreign df = true ->
  Forall (fun r => (default 0 (FlowRecord.institutional r) < 0)%Q
                   /\ (default 0 (FlowRecord.foreign r) < 0)%Q)
         (FlowFrame.rows df) ->
  (30 <= fst (calculate_supply_demand_score (calculate_trend_metrics df)) <= 40)%Z
  /\ (snd (calculate_supply_demand_score (calculate_trend_metrics df))
      = "Strong Distribution"
      \/ snd (calculate_supply_demand_score (calculate_trend_metrics df))
         = "Distribution").
Proof.
  intros Hlen Hi Hf Hall.
  destruct (both_columns_metrics df Hlen Hi Hf)
    as (Hne & Hs1 & Hc1 & Hr1 & Hs2 & Hc2 & Hr2).
  rewrite score_nonempty by exact Hne. cbv zeta.
  rewrite Hs1, Hc1, Hr1, Hs2, Hc2, Hr2.
  destruct (sellers_only (column FlowRecord.institutional (by_date df)))
    as (-> & -> & -> & ->).
  { rewrite length_column. exact Hlen. }
  { apply Forall_column, Forall_by_date.
    eapply Forall_impl; [exact Hall |]. intros r [Hr _]. exact Hr. }
  destruct (sellers_only (column FlowRecord.foreign (by_date df)))
    as (-> & -> & -> & ->).
  { rewrite length_column. exact Hlen. }
  { apply Forall_column, Forall_by_date.
    eapply Forall_impl; [exact Hall |]. intros r [_ Hr]. exact Hr. }
  destruct (fgtb (mget _ "inst_trend_slope") _),
           (fgtb (mget _ "frgn_trend_slope") _);
    (split; [simpl; lia | vm_compute; auto]).
Qed.

End ScoredMetrics.

Section MetricBounds.

Context `{SortValues}.

Lemma lookup_inst_metrics (df : FlowFrame.t) :
  (5 <= length (FlowFrame.rows df))%nat ->
  FlowFrame.has_institutional df = true ->
  let metrics := calculate_trend_metrics df in
  let inst := column FlowRecord.institutional (by_date df) in
  metrics !! "inst_consecutive_buy" = Some (of_Z (consecutive_buy inst))
  /\ metrics !! "inst_buy_ratio" = Some (buy_ratio inst).
Proof.
  intros Hlen Hi. cbv zeta.
  rewrite trend_metrics_unfold by exact Hlen. cbv zeta. rewrite Hi.
  destruct (FlowFrame.has_foreign df); split;
    rewrite ?lookup_insert_ne by discriminate;
    rewrite lookup_insert_eq; reflexivity.
Qed.

Lemma lookup_frgn_metrics (df : FlowFrame.t) :
  (5 <= length (FlowFrame.rows df))%nat ->
  FlowFrame.has_foreign df = true ->
  let metrics := calculate_trend_metrics df in
  let frgn := column FlowRecord.foreign (by_date df) in
  metrics !! "frgn_consecutive_buy" = Some (of_Z (consecutive_buy frgn))
  /\ metrics !! "frgn_buy_ratio" = Some (buy_ratio frgn).
Proof.
  intros Hlen Hf. cbv zeta.
  rewrite trend_metrics_unfold by exact Hlen. cbv zeta. rewrite Hf.
  split;
    rewrite ?lookup_insert_ne by discriminate;
    rewrite lookup_insert_eq; reflexivity.
Qed.

(** X16.  The streak recorded for a class is between 0 and 10 and its buy ratio
    between 0 and 1. *)
Theorem streak_and_ratio_bounds (df : FlowFrame.t) :
  (5 <= length (FlowFrame.rows df))%nat ->
  (FlowFrame.has_institutional df = true ->
   exists (streak : Z) (ratio : Q),
     calculate_trend_metrics df !! "inst_consecutive_buy" = Some (of_Z streak)
     /\ calculate_trend_metrics df !! "inst_buy_ratio" = Some (Fin ratio)
     /\ (0 <= streak <= 10)%Z /\ (0 <= ratio <= 1)%Q)
  /\ (FlowFrame.has_foreign df = true ->
      exists (streak : Z) (ratio : Q),
        calculate_trend_metrics df !! "frgn_consecutive_buy" = Some (of_Z streak)
        /\ calculate_trend_metrics df !! "frgn_buy_ratio" = Some (Fin ratio)
        /\ (0 <= streak <= 10)%Z /\ (0 <= ratio <= 1)%Q).
Proof.
  intros Hlen. split; intros Hcol.
  - destruct (lookup_inst_metrics df Hlen Hcol) as [Hs Hr].
    destruct (buy_ratio_bounds (column FlowRecord.institutional (by_date df)))
      as (ratio & Eratio & Hratio).
    exists (consecutive_buy (column FlowRecord.institutional (by_date df))), ratio.
    rewrite Hs, Hr, Eratio.
    split; [reflexivity |]. split; [reflexivity |].
    split; [apply consecutive_buy_bounds | exact Hratio].
  - destruct (lookup_frgn_metrics df Hlen Hcol) as [Hs Hr].
    destruct (buy_ratio_bounds (column FlowRecord.foreign (by_date df)))
      as (ratio & Eratio & Hratio).
    exists (consecutive_buy (column FlowRecord.foreign (by_date df))), ratio.
    rewrite Hs, Hr, Eratio.
    split; [reflexivity |]. split; [reflexivity |].
    split; [apply consecutive_buy_bounds | exact Hratio].
Qed.

End MetricBounds.

(** ** Row order and the choice of sort routine *)

Section RowOrder.

Context {A : Type}.
Variable R : A -> A -> Prop.

(** Two sorted arrangements of the same rows coincide when no two distinct
    rows are ordered both ways. *)
Lemma sorted_arrangement_unique (l1 l2 : list A) :
  (forall x y, In x l1 -> In y l1 -> R x y -> R y x -> x = y) ->
  StronglySorted R l1 -> StronglySorted R l2 -> Permutation l1 l2 ->
  l1 = l2.
Proof.
  intros Hanti Hs1. revert l2.
  induction Hs1 as [| a l1 Hs1 IH Ha]; intros l2 Hs2 Hperm.
  - apply Permutation_nil in Hperm. congruence.
  - destruct Hs2 as [| b l2 Hs2 Hb].
    + apply Permutation_sym, Permutation_nil in Hperm. discriminate.
    + assert (Eab : a = b).
      { assert (Hina : In a (b :: l2))
          by (eapply Permutation_in; [exact Hperm | left; reflexivity]).
        assert (Hinb : In b (a :: l1))
          by (eapply Permutation_in; [symmetry; exact Hperm | left; reflexivity]).
        destruct Hina as [E | Hina]; [congruence |].
        destruct Hinb as [E | Hinb]; [congruence |].
        rewrite List.Forall_forall in Ha, Hb.
        apply Hanti; [left; reflexivity | right; exact Hinb | auto | auto]. }
      subst b. f_equal.
      apply IH; [| exact Hs2 | eapply Permutation_cons_inv; exact Hperm].
      intros x y Hx Hy. apply Hanti; right; assumption.
Qed.

End RowOrder.

Lemma NoDup_map_injective {A B} (f : A -> B) (l : list A) (x y : A) :
  List.NoDup (map f l) -> In x l -> In y l -> f x = f y -> x = y.
Proof.
  induction l as [| a l IH]; simpl; [tauto |].
  intros Hnd Hx Hy Exy. apply List.NoDup_cons_iff in Hnd.
  destruct Hnd as [Hnotin Hnd].
  destruct Hx as [-> | Hx], Hy as [-> | Hy]; auto.
  - exfalso. apply Hnotin. rewrite Exy. apply in_map, Hy.
  - exfalso. apply Hnotin. rewrite <- Exy. apply in_map, Hx.
Qed.

(** X19.  With distinct dates the metrics depend neither on the order in which the
    rows arrive nor on the sort routine. *)
Theorem trend_metrics_order_independent (S1 S2 : SortValues)
    (df1 df2 : FlowFrame.t) :
  FlowFrame.has_institutional df1 = FlowFrame.has_institutional df2 ->
  FlowFrame.has_foreign df1 = FlowFrame.has_foreign df2 ->
  Permutation (FlowFrame.rows df1) (FlowFrame.rows df2) ->
  List.NoDup (map FlowRecord.date (FlowFrame.rows df1)) ->
  @calculate_trend_metrics S1 df1 = @calculate_trend_metrics S2 df2.
Proof.
  intros Ei Ef Hperm Hdates.
  assert (Hlen : length (FlowFrame.rows df1) = length (FlowFrame.rows df2))
    by (apply Permutation_length, Hperm).
  assert (Hsame : @by_date S1 df1 = @by_date S2 df2).
  { unfold by_date.
    apply (sorted_arrangement_unique
             (key_ordered (fun r => inject_Z (FlowRecord.date r)) true)).
    - intros x y Hx Hy Hxy Hyx. unfold key_ordered in Hxy, Hyx.
      rewrite <- Zle_Qle in Hxy, Hyx.
      assert (Edate : FlowRecord.date x = FlowRecord.date y) by lia.
      assert (Hx' : In x (FlowFrame.rows df1)).
      { eapply Permutation_in; [| exact Hx].
        symmetry. apply (@sort_values_perm S1). }
      assert (Hy' : In y (FlowFrame.rows df1)).
      { eapply Permutation_in; [| exact Hy].
        symmetry. apply (@sort_values_perm S1). }
      exact (NoDup_map_injective FlowRecord.date _ x y Hdates Hx' Hy' Edate).
    - apply (@sort_values_sorted S1).
    - apply (@sort_values_sorted S2).
    - rewrite <- (@sort_values_perm S1 _ _ true (FlowFrame.rows df1)).
      rewrite <- (@sort_values_perm S2 _ _ true (FlowFrame.rows df2)).
      exact Hperm. }
  unfold calculate_trend_metrics. rewrite Hsame, Hlen, Ei, Ef. reflexivity.
Qed.

(** ** Picks and colours of analysed instruments *)

Section Consumers.

Lemma Qle_bool_comp (a b c : Q) : (b == c)%Q -> Qle_bool a b = Qle_bool a c.
Proof.
  intros E. destruct (Qle_bool a c) eqn:Ec.
  - apply Qle_bool_iff in Ec. apply Qle_bool_iff. lra.
  - apply Qle_bool_false in Ec. apply Qle_bool_false. lra.
Qed.

(** The default grades of the notifier single out the scores from 75 up. *)
Lemma default_grades_from_75 (score : Q) :
  isin (investment_grade score) ["S급 (즉시 매수)"; "A급 (적극 매수)"]
  = Qle_bool 75 score.
Proof.
  unfold investment_grade.
  destruct (Qle_bool 85 score) eqn:E85.
  - apply Qle_bool_iff in E85. symmetry.
    transitivity true; [apply Qle_bool_iff; lra | reflexivity].
  - destruct (Qle_bool 75 score); [reflexivity |].
    destruct (Qle_bool 65 score), (Qle_bool 55 score), (Qle_bool 45 score);
      reflexivity.
Qed.

Variable prices_df : list PriceBar.t.
Variable institutional_df : option (list InstRow.t).

(** What an entry of the batch list looks like. *)
Lemma collected_result_shape (result : Result.t) :
  In result (collect_results prices_df institutional_df) ->
  (exists ticker, (length (rows_of prices_df ticker) < 20)%nat
                  /\ result = insufficient_data ticker)
  \/ (exists ticker final,
        (20 <= length (rows_of prices_df ticker))%nat
        /\ (Result.final_investment_score result == final)%Q
        /\ Result.investment_grade result = investment_grade final
        /\ (final <= 74 + inject_Z (fst (supply_demand institutional_df ticker))
                          * (2 # 10))%Q).
Proof.
  unfold collect_results. intros Hin.
  apply in_map_iff in Hin. destruct Hin as (ticker & <- & _).
  destruct (Nat.lt_ge_cases (length (rows_of prices_df ticker)) 20)
    as [Hshort | Hlong].
  - left. exists ticker. split; [exact Hshort |].
    unfold analyze_stock. cbv zeta.
    apply Nat.ltb_lt in Hshort. rewrite Hshort, orb_true_r. reflexivity.
  - right. rewrite analyze_stock_full by exact Hlong. cbv zeta.
    eexists ticker, _. split; [exact Hlong |].
    split; [apply round_final_score |]. split; [reflexivity |].
    apply final_score_interval; [apply wave_score_range | apply proxy_score_range].
Qed.

Lemma default_pick_iff (result : Result.t) :
  In result (collect_results prices_df institutional_df) ->
  isin (Result.investment_grade result) ["S급 (즉시 매수)"; "A급 (적극 매수)"]
  = Qle_bool 75 (Result.final_investment_score result).
Proof.
  intros Hin. destruct (collected_result_shape result Hin)
    as [(ticker & _ & ->) | (ticker & final & _ & Efinal & -> & _)].
  - reflexivity.
  - rewrite (Qle_bool_comp _ _ _ Efinal). apply default_grades_from_75.
Qed.

Context `{SortValues}.
Variable zfill6 : string -> string.

(** X22.  The default picks of the notifier are the entries of the ranked list
    whose final score is at least 75, in ranking order. *)
Theorem default_picks_score_75_up :
  get_new_picks zfill6 (Some (analyze_all_stocks prices_df institutional_df)) None
  = map (fun r => with_ticker (zfill6 (Result.ticker r)) r)
        (List.filter (fun r => Qle_bool 75 (Result.final_investment_score r))
                     (analyze_all_stocks prices_df institutional_df)).
Proof.
  unfold get_new_picks.
  set (ranked := analyze_all_stocks prices_df institutional_df).
  assert (Hranked : forall r, In r ranked ->
            In r (collect_results prices_df institutional_df)).
  { intros r Hr. eapply Permutation_in; [| exact Hr].
    symmetry. unfold ranked, analyze_all_stocks. apply sort_values_perm. }
  induction ranked as [| r ranked IH]; [reflexivity |].
  cbn [map List.filter with_ticker Result.investment_grade
       Result.final_investment_score].
  rewrite (default_pick_iff r) by (apply Hranked; left; reflexivity).
  rewrite IH by (intros r' Hr'; apply Hranked; right; exact Hr').
  destruct (Qle_bool 75 (Result.final_investment_score r)); reflexivity.
Qed.

End Consumers.

(** X23.  An analyzer built without the flow table yields no default pick. *)
Theorem no_flow_data_no_picks `{SortValues} (zfill6 : string -> string)
    (prices_df : list PriceBar.t) :
  get_new_picks zfill6 (Some (analyze_all_stocks prices_df None)) None = [].
Proof.
  unfold get_new_picks.
  set (ranked := analyze_all_stocks prices_df None).
  assert (Hranked : forall r, In r ranked -> In r (collect_results prices_df None)).
  { intros r Hr. eapply Permutation_in; [| exact Hr].
    symmetry. unfold ranked, analyze_all_stocks. apply sort_values_perm. }
  induction ranked as [| r ranked IH]; [reflexivity |].
  cbn [map List.filter with_ticker Result.investment_grade].
  rewrite (default_pick_iff prices_df None r)
    by (apply Hranked; left; reflexivity).
  rewrite IH by (intros r' Hr'; apply Hranked; right; exact Hr').
  destruct (collected_result_shape prices_df None r)
    as [(ticker & _ & ->) | (ticker & final & _ & Efinal & _ & Hmax)];
    [apply Hranked; left; reflexivity | reflexivity |].
  cbn [supply_demand fst] in Hmax. change (inject_Z 0) with 0%Q in Hmax.
  assert (E : Qle_bool 75 (Result.final_investment_score r) = false)
    by (apply Qle_bool_false; lra).
  rewrite E. reflexivity.
Qed.

(** X24.  The colour table of the dashboard knows every grade of a full analysis;
    only the sentinel of a short history falls back to grey. *)
Theorem grade_colour_grey_iff_short (prices_df : list PriceBar.t)
    (institutional_df : option (list InstRow.t)) (ticker : string) :
  exists result : Result.t,
    analyze_stock prices_df institutional_df ticker = inl result
    /\ (get_grade_color (Result.investment_grade result) = "#9E9E9E"
        <-> (length (rows_of prices_df ticker) < 20)%nat).
Proof.
  destruct (Nat.lt_ge_cases (length (rows_of prices_df ticker)) 20)
    as [Hshort | Hlong].
  - exists (insufficient_data ticker). split.
    + unfold analyze_stock. cbv zeta.
      pose proof Hshort as Hb. apply Nat.ltb_lt in Hb.
      rewrite Hb, orb_true_r. reflexivity.
    + split; [intros _; exact Hshort | intros _; vm_compute; reflexivity].
  - rewrite analyze_stock_full by exact Hlong. cbv zeta.
    eexists. split; [reflexivity |]. cbn [Result.investment_grade].
    split; [| lia].
    unfold investment_grade.
    repeat match goal with
           | |- context [if ?b then _ else _] => destruct b
           end; vm_compute; discriminate.
Qed.

(** ** The top list and the summary of the dashboard *)

Section TopList.

Lemma head_prefix {A} (n : Z) (rows : list A) :
  exists m : nat, head n rows = firstn m rows
                  /\ ((0 <= n)%Z -> m = Z.to_nat n).
Proof.
  unfold head. destruct (Z.leb_spec 0 n) as [Hn | Hn].
  - exists (Z.to_nat n). split; [reflexivity | reflexivity].
  - eexists. split; [reflexivity | lia].
Qed.

Lemma sorted_split {A} (R : A -> A -> Prop) (l1 l2 : list A) :
  StronglySorted R (l1 ++ l2)%list ->
  forall x y, In x l1 -> In y l2 -> R x y.
Proof.
  induction l1 as [| a l1 IH]; intros Hs x y Hx Hy; [destruct Hx |].
  simpl in Hs. apply StronglySorted_inv in Hs. destruct Hs as [Hs Ha].
  destruct Hx as [<- | Hx].
  - rewrite List.Forall_forall in Ha. apply Ha, in_or_app. right. exact Hy.
  - apply (IH Hs); assumption.
Qed.

Context `{SortValues}.

(** X26.  [get_top_stocks] keeps a prefix of the ranking: the rows left out are
    ordered after every row kept, and for [n >= 0] it keeps [n] rows, or all
    of them when there are fewer. *)
Theorem top_stocks_dominate (df : list Result.t) (n : Z) (ascending : bool) :
  exists rest : list Result.t,
    Permutation df (get_top_stocks df n ascending ++ rest)%list
    /\ (forall kept left_out,
          In kept (get_top_stocks df n ascending) -> In left_out rest ->
          key_ordered Result.final_investment_score ascending kept left_out)
    /\ ((0 <= n)%Z ->
        length (get_top_stocks df n ascending)
        = Nat.min (Z.to_nat n) (length df)).
Proof.
  unfold get_top_stocks.
  destruct (Nat.eqb_spec (length df) 0) as [Hempty | Hne].
  - destruct df; [| discriminate]. exists [].
    split; [reflexivity |]. split; [intros kept left_out [] |].
    intros _. simpl. lia.
  - set (ranked := sort_values Result.final_investment_score ascending df).
    destruct (head_prefix n ranked) as (m & -> & Hm).
    exists (skipn m ranked). split; [| split].
    + rewrite firstn_skipn. apply sort_values_perm.
    + apply sorted_split. rewrite firstn_skipn. apply sort_values_sorted.
    + intros Hn. rewrite (Hm Hn), length_take.
      unfold ranked.
      rewrite <- (Permutation_length
                    (sort_values_perm _ Result.final_investment_score
                                      ascending df)).
      reflexivity.
Qed.

End TopList.

Section SummaryStats.

Lemma fold_Qmax_bound (rest : list Q) (x : Q) :
  (x <= fold_left Qmax rest x)%Q
  /\ Forall (fun q => (q <= fold_left Qmax rest x)%Q) rest.
Proof.
  revert x. induction rest as [| y rest IH]; intros x; simpl.
  - split; [apply Qle_refl | constructor].
  - destruct (IH (Qmax x y)) as [Hxy Hrest].
    pose proof (Q.le_max_l x y). pose proof (Q.le_max_r x y).
    split; [lra |]. constructor; [lra | exact Hrest].
Qed.

Lemma fold_Qmin_bound (rest : list Q) (x : Q) :
  (fold_left Qmin rest x <= x)%Q
  /\ Forall (fun q => (fold_left Qmin rest x <= q)%Q) rest.
Proof.
  revert x. induction rest as [| y rest IH]; intros x; simpl.
  - split; [apply Qle_refl | constructor].
  - destruct (IH (Qmin x y)) as [Hxy Hrest].
    pose proof (Q.le_min_l x y). pose proof (Q.le_min_r x y).
    split; [lra |]. constructor; [lra | exact Hrest].
Qed.

Lemma series_max_bound (xs : list Q) :
  Forall (fun q => (q <= series_max xs)%Q) xs.
Proof.
  destruct xs as [| x rest]; [constructor |]. simpl.
  destruct (fold_Qmax_bound rest x). constructor; assumption.
Qed.

Lemma series_min_bound (xs : list Q) :
  Forall (fun q => (series_min xs <= q)%Q) xs.
Proof.
  destruct xs as [| x rest]; [constructor |]. simpl.
  destruct (fold_Qmin_bound rest x). constructor; assumption.
Qed.

Lemma Qsum_between (lo hi : Q) (xs : list Q) :
  Forall (fun q => (lo <= q)%Q) xs -> Forall (fun q => (q <= hi)%Q) xs ->
  (lo * inject_Z (Z.of_nat (length xs)) <= Qsum xs)%Q
  /\ (Qsum xs <= hi * inject_Z (Z.of_nat (length xs)))%Q.
Proof.
  induction xs as [| x xs IH]; intros Hlo Hhi.
  - cbn [length Qsum fold_right]. change (inject_Z (Z.of_nat 0)) with 0%Q.
    split; lra.
  - apply Forall_cons in Hlo, Hhi.
    destruct Hlo as [Hlo Hlos], Hhi as [Hhi His].
    destruct (IH Hlos His) as [IH1 IH2].
    cbn [length Qsum fold_right].
    rewrite Nat2Z.inj_succ, <- Z.add_1_r, inject_Z_plus.
    change (inject_Z 1) with 1%Q.
    unfold Qsum in IH1, IH2. split; lra.
Qed.

Lemma count_grades_disjoint (df : list Result.t) :
  (count_grade "S급 (즉시 매수)" df + count_grade "A급 (적극 매수)" df
   = length (List.filter
               (fun r => isin (Result.investment_grade r)
                           ["S급 (즉시 매수)"; "A급 (적극 매수)"]) df))%nat.
Proof.
  unfold count_grade, isin.
  induction df as [| r df IH]; [reflexivity |].
  cbn [List.filter existsb] in *.
  destruct (String.eqb_spec (Result.investment_grade r) "S급 (즉시 매수)")
    as [E | _].
  - rewrite E. change ("S급 (즉시 매수)" =? "A급 (적극 매수)")%string with false.
    cbn [orb length]. rewrite <- IH. reflexivity.
  - destruct (String.eqb (Result.investment_grade r) "A급 (적극 매수)");
      cbn [orb length]; rewrite <- IH; lia.
Qed.

(** X27.  The summary of a non-empty table: the average lies between the lowest
    and the highest score, and the S and A counts add up to the number of
    default picks the notifier takes from the same table. *)
Theorem summary_stats_consistent (zfill6 : string -> string)
    (df : list Result.t) :
  df <> [] ->
  exists stats : Summary.t,
    get_summary_stats df = Some stats
    /\ Summary.total_stocks stats = length df
    /\ (Summary.min_score stats <= Summary.avg_score stats)%Q
    /\ (Summary.avg_score stats <= Summary.max_score stats)%Q
    /\ (Summary.s_grade_count stats + Summary.a_grade_count stats
        = length (get_new_picks zfill6 (Some df) None))%nat.
Proof.
  intros Hne. unfold get_summary_stats.
  destruct (Nat.eqb_spec (length df) 0) as [Hz | Hpos].
  { destruct df; [congruence | discriminate]. }
  eexists. split; [reflexivity |].
  cbn [Summary.total_stocks Summary.min_score Summary.avg_score
       Summary.max_score Summary.s_grade_count Summary.a_grade_count].
  split; [reflexivity |].
  set (scores := map Result.final_investment_score df).
  assert (Hlen : (0 < inject_Z (Z.of_nat (length scores)))%Q).
  { unfold scores. rewrite length_map, <- (Zlt_Qlt 0). lia. }
  destruct (Qsum_between (series_min scores) (series_max scores) scores
              (series_min_bound scores) (series_max_bound scores))
    as [Hlo Hhi].
  split; [| split].
  - unfold series_mean. apply Qle_shift_div_l; [exact Hlen | exact Hlo].
  - unfold series_mean. apply Qle_shift_div_r; [exact Hlen | exact Hhi].
  - rewrite count_grades_disjoint. unfold get_new_picks.
    clear. induction df as [| r df IH]; [reflexivity |].
    cbn [map List.filter with_ticker Result.investment_grade].
    destruct (isin (Result.investment_grade r) _); cbn [length]; rewrite IH;
      reflexivity.
Qed.

(** An empty table has no summary. *)
Lemma summary_of_empty_table : get_summary_stats [] = None.
Proof. reflexivity. Qed.

End SummaryStats.

(** ** The collected flow table *)

Section Collected.

Context `{SortValues}.

Variable Raw : Type.
Variable raw_empty : Raw -> bool.
Variable get_investor_trading_data : string -> Z -> Raw.
Variable parse_investor_data : Raw -> FlowFrame.t + exception.
Variable zfill6 : string -> string.

Let collect :=
  collect_all_institutional_data Raw raw_empty get_investor_trading_data
    parse_investor_data zfill6.

Lemma scored_metrics_shape (metrics : gmap string float64) :
  (calculate_supply_demand_score metrics = (0%Z, "Unknown"))
  \/ ((30 <= fst (calculate_supply_demand_score metrics) <= 100)%Z
      /\ snd (calculate_supply_demand_score metrics)
         = supply_demand_stage (fst (calculate_supply_demand_score metrics))).
Proof.
  destruct (decide (metrics = ∅)) as [-> | Hne]; [left; reflexivity |].
  right. split; [apply nonempty_score_range, Hne |].
  rewrite score_nonempty by exact Hne. reflexivity.
Qed.

Lemma analyzed_trend_shape (ticker name market : string) :
  match analyze_institutional_trend Raw raw_empty get_investor_trading_data
          parse_investor_data ticker name market with
  | inl r => scored_or_blank r /\ Trend.ticker r = ticker
  | inr _ => True
  end.
Proof.
  unfold analyze_institutional_trend. cbv zeta.
  destruct (raw_empty _).
  { split; [left; split; [reflexivity | left; reflexivity] | reflexivity]. }
  destruct (parse_investor_data _) as [parsed | e]; [| exact I].
  destruct (Nat.eqb _ 0).
  { split; [left; split; [reflexivity | left; reflexivity] | reflexivity]. }
  destruct (scored_metrics_shape (calculate_trend_metrics parsed))
    as [E | [Hrange Hstage]].
  - rewrite E. split; [left; split; [reflexivity | left; reflexivity] |
                       reflexivity].
  - destruct (calculate_supply_demand_score _) as [score stage].
    split; [right; split; [exact Hrange | exact Hstage] | reflexivity].
Qed.

Lemma collect_scored_or_blank (stocks : list Stock.t) :
  Forall scored_or_blank (collect (Some stocks)).
Proof.
  unfold collect, collect_all_institutional_data.
  apply Forall_fmap, List.Forall_forall. intros row _. cbv zeta.
  pose proof (analyzed_trend_shape (zfill6 (Stock.ticker row))
                (Stock.name row) (default "KOSPI" (Stock.market row))) as Hs.
  unfold compose.
  destruct (analyze_institutional_trend _ _ _ _ _ _ _) as [r | e];
    [apply Hs |].
  left. split; [reflexivity | right; reflexivity].
Qed.

(** X20.  [collect_all_institutional_data] returns one entry per listed stock, in
    list order and under its padded ticker; each entry has score 0 with the
    stage "Unknown" or "Error", or a score from 30 to 100 with the stage of
    that score. *)
Theorem collected_table_shape (stocks : list Stock.t) :
  map Trend.ticker (collect (Some stocks))
  = map (fun row => zfill6 (Stock.ticker row)) stocks
  /\ Forall scored_or_blank (collect (Some stocks)).
Proof.
  split; [| apply collect_scored_or_blank].
  unfold collect, collect_all_institutional_data.
  rewrite map_map. apply map_ext. intros row. cbv zeta.
  pose proof (analyzed_trend_shape (zfill6 (Stock.ticker row))
                (Stock.name row) (default "KOSPI" (Stock.market row))) as Hs.
  destruct (analyze_institutional_trend _ _ _ _ _ _ _) as [r | e];
    [apply Hs | reflexivity].
Qed.

Lemma looked_up_score_range (inst : list InstRow.t) (ticker : string) :
  Forall (fun row => exists score,
            InstRow.supply_demand_score row = Some score
            /\ (0 <= score <= 100)%Z) inst ->
  (0 <= fst (supply_demand (Some inst) ticker) <= 100)%Z.
Proof.
  intros Hall. unfold supply_demand.
  destruct (negb (Nat.eqb (length inst) 0)); [| simpl; lia].
  destruct (List.filter _ inst) as [| row rest] eqn:E; [simpl; lia |].
  assert (Hin : In row inst).
  { assert (Hin : In row (List.filter
               (fun r => String.eqb (InstRow.ticker r) ticker) inst))
      by (rewrite E; left; reflexivity).
    apply filter_In in Hin. apply Hin. }
  rewrite List.Forall_forall in Hall.
  destruct (Hall row Hin) as (score & Escore & Hrange).
  cbn [fst]. rewrite Escore. exact Hrange.
Qed.

(** X21.  Scored against the collected flow table, an instrument with at least 20
    bars has a final score between 28 and 94. *)
Theorem final_score_at_most_94 (prices_df : list PriceBar.t)
    (stocks : list Stock.t) (ticker : string) :
  (20 <= length (rows_of prices_df ticker))%nat ->
  exists result : Result.t,
    analyze_stock prices_df
      (Some (institutional_table zfill6 (collect (Some stocks)))) ticker
    = inl result
    /\ (28 <= Result.final_investment_score result <= 94)%Q.
Proof.
  intros Hlen. rewrite analyze_stock_full by exact Hlen. cbv zeta.
  eexists. split; [reflexivity |]. cbn [Result.final_investment_score].
  rewrite round_final_score.
  set (inst := institutional_table zfill6 (collect (Some stocks))).
  assert (Hflow : (0 <= fst (supply_demand (Some inst) ticker) <= 100)%Z).
  { apply looked_up_score_range. unfold inst, institutional_table.
    apply Forall_fmap.
    eapply Forall_impl; [apply collect_scored_or_blank |].
    intros r Hr. eexists. split; [reflexivity |].
    cbn [InstRow.supply_demand_score].
    destruct Hr as [[-> _] | [Hr _]]; lia. }
  set (latest := indicator_row _ _).
  destruct (final_score_interval (fst (_classify_wave_stage latest))
              (_calculate_fundamental_score latest)
              (fst (supply_demand (Some inst) ticker))
              (wave_score_range latest) (proxy_score_range latest))
    as [Hlo Hhi].
  destruct Hflow as [Hf0 Hf100]. rewrite Zle_Qle in Hf0, Hf100.
  change (inject_Z 0) with 0%Q in Hf0.
  change (inject_Z 100) with 100%Q in Hf100.
  split; lra.
Qed.

End Collected.

Section StrongUptrendGrade.

Lemma strong_uptrend_volume (row : Row.t) :
  fst (_classify_wave_stage row) = 90%Z ->
  fgeb (get (Row.volume_ratio row) (Fin 1)) (Fin 1.3) = true.
Proof.
  unfold _classify_wave_stage. cbv zeta.
  destruct (fgeb (get (Row.volume_ratio row) (Fin 1)) (Fin 1.3));
    [reflexivity |].
  rewrite !andb_false_r. simpl andb. cbv iota.
  repeat match goal with
         | |- context [if ?b then _ else _] => destruct b
         end; simpl; discriminate.
Qed.

Lemma strong_uptrend_proxy_score (row : Row.t) :
  fst (_classify_wave_stage row) = 90%Z ->
  (13 <= _calculate_fundamental_score row)%Z.
Proof.
  intros H90. apply strong_uptrend_volume in H90.
  assert (H12 : fgeb (get (Row.volume_ratio row) (Fin 1)) (Fin 1.2) = true).
  { unfold fgeb in *. apply (fleb_trans _ (Fin 1.3)); [| exact H90].
    apply Qle_bool_iff. lra. }
  unfold _calculate_fundamental_score. cbv zeta. rewrite H12.
  repeat match goal with
         | |- context [if ?b then _ else _] => destruct b
         end; lia.
Qed.

Variable prices_df : list PriceBar.t.
Variable institutional_df : option (list InstRow.t).

(** X12.  An instrument reported in stage 90 whose flow score is not negative has
    a final score of at least 67: it is graded S, A or B. *)
Theorem strong_uptrend_graded_B_or_better (ticker : string)
    (result : Result.t) :
  analyze_stock prices_df institutional_df ticker = inl result ->
  Result.wave_score result = 90%Z ->
  (0 <= fst (supply_demand institutional_df ticker))%Z ->
  (67 <= Result.final_investment_score result)%Q
  /\ (Result.investment_grade result = "S급 (즉시 매수)"
      \/ Result.investment_grade result = "A급 (적극 매수)"
      \/ Result.investment_grade result = "B급 (매수 고려)").
Proof.
  intros Hres H90 Hflow.
  destruct (Nat.lt_ge_cases (length (rows_of prices_df ticker)) 20)
    as [Hshort | Hlen].
  { unfold analyze_stock in Hres. cbv zeta in Hres.
    apply Nat.ltb_lt in Hshort. rewrite Hshort, orb_true_r in Hres.
    injection Hres as <-. discriminate H90. }
  rewrite analyze_stock_full in Hres by exact Hlen. cbv zeta in Hres.
  injection Hres as <-.
  cbn [Result.wave_score Result.final_investment_score Result.investment_grade]
    in *.
  set (latest := indicator_row _ _) in *.
  pose proof (strong_uptrend_proxy_score latest H90) as Hproxy.
  assert (Hfinal : (67 <= final_score (fst (_classify_wave_stage latest))
                            (_calculate_fundamental_score latest)
                            (fst (supply_demand institutional_df ticker)))%Q).
  { unfold final_score. rewrite H90.
    rewrite Zle_Qle in Hproxy, Hflow.
    change (inject_Z 13) with 13%Q in Hproxy.
    change (inject_Z 0) with 0%Q in Hflow.
    change (inject_Z 90) with 90%Q. lra. }
  split; [rewrite round_final_score; exact Hfinal |].
  unfold investment_grade.
  set (final := final_score _ _ _) in *.
  destruct (Qle_bool 85 final); [left; reflexivity |].
  destruct (Qle_bool 75 final); [right; left; reflexivity |].
  assert (H65 : Qle_bool 65 final = true) by (apply Qle_bool_iff; lra).
  rewrite H65. right; right; reflexivity.
Qed.

End StrongUptrendGrade.

Section Gauge.

Lemma fgeb_of_Z (score bound : Z) :
  fgeb (of_Z score) (Fin (inject_Z bound)) = (bound <=? score)%Z.
Proof.
  unfold fgeb, of_Z, fleb.
  destruct (Z.leb_spec bound score) as [Hle | Hgt].
  - apply Qle_bool_iff. rewrite <- Zle_Qle. exact Hle.
  - apply Qle_bool_false. rewrite <- Zlt_Qlt. exact Hgt.
Qed.

(** X25.  The colour bands of the score gauge are the stage bands of the flow
    score: each stage has its own colour. *)
Theorem gauge_colour_follows_flow_stage (score : Z) :
  let colour := get_color_by_score (of_Z score) in
  let stage := supply_demand_stage score in
  (colour = "#00C853" <-> stage = "Strong Accumulation")
  /\ (colour = "#64DD17" <-> stage = "Accumulation")
  /\ (colour = "#FFC107" <-> stage = "Neutral")
  /\ (colour = "#FF9800" <-> stage = "Distribution")
  /\ (colour = "#F44336" <-> stage = "Strong Distribution").
Proof.
  cbv zeta. unfold get_color_by_score, supply_demand_stage.
  change (Fin 80) with (Fin (inject_Z 80)).
  change (Fin 65) with (Fin (inject_Z 65)).
  change (Fin 50) with (Fin (inject_Z 50)).
  change (Fin 35) with (Fin (inject_Z 35)).
  rewrite !fgeb_of_Z.
  destruct (80 <=? score)%Z, (65 <=? score)%Z, (50 <=? score)%Z,
           (35 <=? score)%Z;
    repeat split; intros E; first [reflexivity | discriminate E].
Qed.

End Gauge.

(** ** The theorems above at sample inputs *)

Lemma thin_volume_never_uptrend_witness :
  fst (_classify_wave_stage (Fixtures.uptrend_row 0.5)) <> 90%Z
  /\ fst (_classify_wave_stage (Fixtures.uptrend_row 0.5)) <> 80%Z
  /\ fst (_classify_wave_stage (Fixtures.uptrend_row 0.5)) <> 60%Z.
Proof.
  apply (thin_volume_never_uptrend (Fixtures.uptrend_row 0.5)).
  vm_compute. reflexivity.
Defined.

Lemma short_history_never_aligned_witness :
  Row.ma50 (indicator_row Samples.zigzag_history 21)
  = Row.ma200 (indicator_row Samples.zigzag_history 21)
  /\ Row.ma_aligned (indicator_row Samples.zigzag_history 21) = Some false.
Proof.
  apply (short_history_never_aligned Samples.zigzag_history 21);
    vm_compute; lia.
Defined.

Lemma price_change_20d_needs_21_bars_witness :
  Row.price_change_20d (indicator_row Samples.zigzag_history 19) = Some NaN.
Proof.
  apply (price_change_20d_needs_21_bars Samples.zigzag_history 19);
    vm_compute; lia.
Defined.

Lemma price_change_20d_value_witness :
  exists change : Q,
    Row.price_change_20d (indicator_row Samples.zigzag_history 21)
    = Some (Fin change)
    /\ (change == PriceBar.close (Samples.bar 22 112 1500)
                  / PriceBar.close (Samples.bar 2 102 1000) - 1)%Q.
Proof.
  apply (price_change_20d_value Samples.zigzag_history 21
           (Samples.bar 22 112 1500) (Samples.bar 2 102 1000)).
  - reflexivity.
  - lia.
  - reflexivity.
  - vm_compute. discriminate.
Defined.

Lemma position_52w_needs_20_bars_witness :
  Row.high_52w (indicator_row Samples.zigzag_history 18) = Some NaN
  /\ Row.low_52w (indicator_row Samples.zigzag_history 18) = Some NaN
  /\ Row.position_52w (indicator_row Samples.zigzag_history 18) = Some NaN.
Proof.
  apply (position_52w_needs_20_bars Samples.zigzag_history 18);
    vm_compute; lia.
Defined.

Lemma position_52w_percentile_witness :
  exists position : Q,
    Row.position_52w (indicator_row Samples.zigzag_history 19)
    = Some (Fin position)
    /\ (0 <= position <= 100)%Q.
Proof.
  apply (position_52w_percentile Samples.zigzag_history 19
           (Samples.bar 20 111 1000)).
  - reflexivity.
  - lia.
  - vm_compute. discriminate.
  - vm_compute. discriminate.
Defined.

Lemma final_score_bounds_witness :
  exists result : Result.t,
    analyze_stock Samples.zigzag_history (Some Samples.flow_table) "005930"
    = inl result
    /\ (28 + inject_Z (fst (supply_demand (Some Samples.flow_table) "005930"))
             * (2 # 10)
        <= Result.final_investment_score result)%Q
    /\ (Result.final_investment_score result
        <= 74 + inject_Z (fst (supply_demand (Some Samples.flow_table) "005930"))
                * (2 # 10))%Q.
Proof.
  apply (final_score_bounds Samples.zigzag_history (Some Samples.flow_table)
           "005930").
  vm_compute. lia.
Defined.

Lemma young_listing_never_strong_or_declining_witness :
  exists result : Result.t,
    analyze_stock Samples.zigzag_history None "005930" = inl result
    /\ Result.wave_score result <> 90%Z
    /\ Result.wave_score result <> 30%Z.
Proof.
  apply (young_listing_never_strong_or_declining Samples.zigzag_history None
           "005930").
  vm_compute. lia.
Defined.

Lemma strong_uptrend_graded_B_or_better_witness :
  (67 <= Result.final_investment_score Fixtures.uptrend_result)%Q
  /\ (Result.investment_grade Fixtures.uptrend_result = "S급 (즉시 매수)"
      \/ Result.investment_grade Fixtures.uptrend_result = "A급 (적극 매수)"
      \/ Result.investment_grade Fixtures.uptrend_result = "B급 (매수 고려)").
Proof.
  apply (strong_uptrend_graded_B_or_better Fixtures.uptrend_history
           (Some Samples.flow_table) "005930" Fixtures.uptrend_result).
  - vm_compute. reflexivity.
  - reflexivity.
  - vm_compute. discriminate.
Defined.

Lemma streak_and_ratio_bounds_witness :
  (FlowFrame.has_institutional Samples.five_days = true ->
   exists (streak : Z) (ratio : Q),
     @calculate_trend_metrics stable_sort Samples.five_days
       !! "inst_consecutive_buy" = Some (of_Z streak)
     /\ @calculate_trend_metrics stable_sort Samples.five_days
          !! "inst_buy_ratio" = Some (Fin ratio)
     /\ (0 <= streak <= 10)%Z /\ (0 <= ratio <= 1)%Q)
  /\ (FlowFrame.has_foreign Samples.five_days = true ->
      exists (streak : Z) (ratio : Q),
        @calculate_trend_metrics stable_sort Samples.five_days
          !! "frgn_consecutive_buy" = Some (of_Z streak)
        /\ @calculate_trend_metrics stable_sort Samples.five_days
             !! "frgn_buy_ratio" = Some (Fin ratio)
        /\ (0 <= streak <= 10)%Z /\ (0 <= ratio <= 1)%Q).
Proof.
  apply (@streak_and_ratio_bounds stable_sort Samples.five_days).
  vm_compute. lia.
Defined.

Lemma all_buy_days_score_100_witness :
  calculate_supply_demand_score
    (@calculate_trend_metrics stable_sort Fixtures.buying_week)
  = (100%Z, "Strong Accumulation").
Proof.
  apply (@all_buy_days_score_100 stable_sort Fixtures.buying_week).
  - vm_compute. lia.
  - reflexivity.
  - reflexivity.
  - repeat constructor; vm_compute; reflexivity.
Defined.

Lemma all_sell_days_score_low_witness :
  (30 <= fst (calculate_supply_demand_score
                (@calculate_trend_metrics stable_sort Fixtures.selling_week))
   <= 40)%Z
  /\ (snd (calculate_supply_demand_score
             (@calculate_trend_metrics stable_sort Fixtures.selling_week))
      = "Strong Distribution"
      \/ snd (calculate_supply_demand_score
                (@calculate_trend_metrics stable_sort Fixtures.selling_week))
         = "Distribution").
Proof.
  apply (@all_sell_days_score_low stable_sort Fixtures.selling_week).
  - vm_compute. lia.
  - reflexivity.
  - reflexivity.
  - repeat constructor; vm_compute; reflexivity.
Defined.

Lemma trend_metrics_order_independent_witness :
  @calculate_trend_metrics stable_sort Samples.five_days
  = @calculate_trend_metrics reversing_sort Fixtures.five_days_reversed.
Proof.
  apply (trend_metrics_order_independent stable_sort reversing_sort
           Samples.five_days Fixtures.five_days_reversed).
  - reflexivity.
  - reflexivity.
  - apply Permutation_rev.
  - vm_compute. repeat constructor; simpl; intuition discriminate.
Defined.

Lemma summary_stats_consistent_witness :
  exists stats : Summary.t,
    get_summary_stats Fixtures.two_results = Some stats
    /\ Summary.total_stocks stats = length Fixtures.two_results
    /\ (Summary.min_score stats <= Summary.avg_score stats)%Q
    /\ (Summary.avg_score stats <= Summary.max_score stats)%Q
    /\ (Summary.s_grade_count stats + Summary.a_grade_count stats
        = length (get_new_picks (fun t => t) (Some Fixtures.two_results) None))%nat.
Proof.
  apply (summary_stats_consistent (fun t => t) Fixtures.two_results).
  discriminate.
Defined.

Lemma final_score_at_most_94_witness :
  exists result : Result.t,
    analyze_stock Fixtures.uptrend_history
      (Some (institutional_table (fun t => t)
               (@collect_all_institutional_data stable_sort FlowFrame.t
                  (fun raw => Nat.eqb (length (FlowFrame.rows raw)) 0)
                  Fixtures.scraped Fixtures.parsed (fun t => t)
                  (Some Fixtures.listed))))
      "005930"
    = inl result
    /\ (28 <= Result.final_investment_score result <= 94)%Q.
Proof.
  apply (@final_score_at_most_94 stable_sort FlowFrame.t
           (fun raw => Nat.eqb (length (FlowFrame.rows raw)) 0)
           Fixtures.scraped Fixtures.parsed (fun t => t)
           Fixtures.uptrend_history Fixtures.listed "005930").
  vm_compute. lia.
Defined.
